(** * Loan risk calculation and scoring engine

    A shallow embedding of [LoanCalculator] (services/loan-calculator.ts), of
    the components that call it, and the properties of its specification.

    Numbers.  The calculator is embedded twice.  In [LoanCalculator] the
    TypeScript type [number] is read as the field of real numbers: [+], [-],
    [*], [/] are the exact operations of [R], the comparisons are the
    decidable comparisons of [R], [Math.pow] on a positive base is [Rpower]
    and [Math.round] is rounding to the nearest integer with ties going up.
    In [Binary64] the same functions are written over IEEE 754 binary64
    values, with not-a-number and the infinities; the properties that turn
    on rounding, overflow or not-a-number are stated there.  The risk score,
    an integer built from the literals 0, 50, 30, 15 and 10, is kept in [Z].

    Failure.  [throw new Error(msg)] is the outcome [Thrown msg]; a call that
    returns is [Returned v]. *)

From Stdlib Require Import Reals Lra ZArith Lia String Bool List.
From Stdlib Require Floats.
Import ListNotations.

Open Scope R_scope.

(* ------------------------------------------------------------------ *)
(** ** Outcomes of a call that may throw *)

Inductive outcome (A : Type) : Type :=
| Returned (value : A)
| Thrown (message : string).

Arguments Returned {A} value.
Arguments Thrown {A} message.

Definition bind {A B : Type} (c : outcome A) (k : A -> outcome B) : outcome B :=
  match c with
  | Returned v => k v
  | Thrown msg => Thrown msg
  end.

Notation "c ;; k" := (bind c (fun _ => k))
  (at level 61, right associativity).

(** [if (cond) throw new Error(msg);] *)
Definition throw_if {P Q : Prop} (cond : {P} + {Q}) (msg : string) : outcome unit :=
  if cond then Thrown msg else Returned tt.

(* ------------------------------------------------------------------ *)
(** ** The two library functions the calculator calls *)

(** [Math.round x]: the integer nearest to [x], a tie going towards
    plus infinity, that is the floor of [x + 1/2]. *)
Definition Math_round (x : R) : R := IZR (Int_part (x + / 2)).

(** [Math.pow b e], used by the calculator with a base above 1 only. *)
Definition Math_pow (b e : R) : R := Rpower b e.

(** [a || b] on numbers: [b] when [a] is zero, [a] otherwise. *)
Definition or_else (a b : R) : R := if Req_dec_T a 0 then b else a.

(* ------------------------------------------------------------------ *)
(** ** Data model *)

Inductive InterestType : Set := daily | monthly_flat | reducing_balance.

Inductive TenorUnit : Set := days | months.

Record LoanInput : Type := {
  amount : R;
  interestRate : R;
  interestType : InterestType;
  tenor : R;
  tenorUnit : TenorUnit;
  adminFee : R;
  monthlyIncome : R;
  lenderName : string
}.

Inductive RiskLevel : Set := Rendah | Sedang | Tinggi | Sangat_Berbahaya.

Record LoanMetrics : Type := {
  totalRepayment : R;
  monthlyInstallment : R;
  effectiveApr : R;
  dtiRatio : R;
  riskScore : Z;
  riskLevel : RiskLevel
}.

Module LoanCalculator.

(** The messages of the five validation errors, in the order of the checks. *)
Definition msg_amount : string := "Jumlah pinjaman harus lebih dari 0".
Definition msg_interestRate : string := "Suku bunga harus lebih dari 0".
Definition msg_tenor : string := "Tenor harus lebih dari 0".
Definition msg_monthlyIncome : string := "Gaji bulanan harus lebih dari 0".
Definition msg_adminFee : string := "Biaya admin tidak boleh negatif".

(** [validateInput]: five guarded throws, one after the other. *)
Definition validateInput (input : LoanInput) : outcome unit :=
  throw_if (Rle_dec (amount input) 0) msg_amount ;;
  throw_if (Rle_dec (interestRate input) 0) msg_interestRate ;;
  throw_if (Rle_dec (tenor input) 0) msg_tenor ;;
  throw_if (Rle_dec (monthlyIncome input) 0) msg_monthlyIncome ;;
  throw_if (Rlt_dec (adminFee input) 0) msg_adminFee.

(** [calculateDailyInterest] *)
Definition calculateDailyInterest
    (principal dailyRate tenor : R) (tenorUnit : TenorUnit) : R :=
  let dailyRateDecimal := dailyRate / 100 in
  let tenorInDays := match tenorUnit with days => tenor | months => tenor * 30 end in
  principal * dailyRateDecimal * tenorInDays.

(** [calculateMonthlyFlatInterest] *)
Definition calculateMonthlyFlatInterest
    (principal monthlyRate tenorInMonths : R) : R :=
  let monthlyRateDecimal := monthlyRate / 100 in
  principal * monthlyRateDecimal * tenorInMonths.

(** The object [calculateReducingBalanceInterest] returns; its two fields
    are [monthlyInstallment] and [totalInterest] in the source. *)
Record Amortization : Type := {
  amortInstallment : R;
  amortInterest : R
}.

(** [calculateReducingBalanceInterest] *)
Definition calculateReducingBalanceInterest
    (principal monthlyRate tenorInMonths adminFee : R) : Amortization :=
  let monthlyRateDecimal := monthlyRate / 100 in
  if Req_dec_T monthlyRateDecimal 0 then
    {| amortInstallment := (principal + adminFee) / tenorInMonths;
       amortInterest := 0 |}
  else
    (* PMT formula: P * [r(1+r)^n] / [(1+r)^n - 1] *)
    let numerator :=
      monthlyRateDecimal * Math_pow (1 + monthlyRateDecimal) tenorInMonths in
    let denominator := Math_pow (1 + monthlyRateDecimal) tenorInMonths - 1 in
    let monthlyInstallmentPrincipal := (principal * numerator) / denominator in
    (* Add prorated admin fee *)
    let monthlyInstallment := monthlyInstallmentPrincipal + adminFee / tenorInMonths in
    (* Total interest = (monthly payment * months) - principal *)
    let totalInterest := monthlyInstallmentPrincipal * tenorInMonths - principal in
    {| amortInstallment := monthlyInstallment;
       amortInterest := totalInterest |}.

(** [calculateMetrics].  The three locals [totalInterest], [effectiveApr]
    and [monthlyInstallment] that the branches assign are bound together, in
    this order; [riskScore] is rebound where the source adds to it. *)
Definition calculateMetrics (input : LoanInput) (isOjkRegistered : bool)
  : outcome LoanMetrics :=
  (* Input validation *)
  validateInput input ;;
  let principal := amount input in
  let tenorInMonths :=
    match tenorUnit input with
    | months => tenor input
    | days => tenor input / 30
    end in
  (* Calculate based on interest type *)
  let '(totalInterest, effectiveApr, monthlyInstallment) :=
    match interestType input with
    | daily =>
        let totalInterest :=
          calculateDailyInterest principal (interestRate input)
                                 (tenor input) (tenorUnit input) in
        (totalInterest,
         (interestRate input / 100) * 365 * 100,
         (principal + totalInterest + adminFee input) / (or_else tenorInMonths 1))
    | monthly_flat =>
        let totalInterest :=
          calculateMonthlyFlatInterest principal (interestRate input)
                                       tenorInMonths in
        (totalInterest,
         (interestRate input / 100) * 12 * 100,
         (principal + totalInterest + adminFee input) / tenorInMonths)
    | reducing_balance =>
        let result :=
          calculateReducingBalanceInterest principal (interestRate input)
                                           tenorInMonths (adminFee input) in
        (amortInterest result,
         (interestRate input / 100) * 12 * 100,
         amortInstallment result)
    end in
  let totalRepayment := principal + totalInterest + adminFee input in
  let dtiRatio := (monthlyInstallment / monthlyIncome input) * 100 in
  (* Calculate risk score *)
  let riskScore := 0%Z in
  (* Factor 1: OJK Registration (50 points if unregistered) *)
  let riskScore :=
    if negb isOjkRegistered then (riskScore + 50)%Z else riskScore in
  (* Factor 2: Debt-to-Income Ratio *)
  let riskScore :=
    if Rgt_dec dtiRatio 40 then (riskScore + 30)%Z
    else if Rgt_dec dtiRatio 30 then (riskScore + 15)%Z
    else riskScore in
  (* Factor 3: Effective APR *)
  let riskScore :=
    if Rgt_dec effectiveApr 36 then (riskScore + 30)%Z
    else if Rgt_dec effectiveApr 20 then (riskScore + 10)%Z
    else riskScore in
  (* Determine risk level *)
  let riskLevel :=
    if (riskScore >=? 75)%Z then Sangat_Berbahaya
    else if (riskScore >=? 50)%Z then Tinggi
    else if (riskScore >=? 25)%Z then Sedang
    else Rendah in
  Returned {| totalRepayment := Math_round (totalRepayment * 100) / 100;
              monthlyInstallment := Math_round (monthlyInstallment * 100) / 100;
              effectiveApr := Math_round (effectiveApr * 100) / 100;
              dtiRatio := Math_round (dtiRatio * 100) / 100;
              riskScore := riskScore;
              riskLevel := riskLevel |}.

End LoanCalculator.

Import LoanCalculator.

(* ------------------------------------------------------------------ *)
(** ** The locals of [calculateMetrics], as functions of its arguments

    The properties below speak of values the function computes on its way
    (the total interest, the unrounded ratios, the points of each factor).
    Each is defined here as the source computes it, and
    [calculateMetrics_Returned] shows that the returned record is built
    from them. *)

(** [tenorInMonths] *)
Definition tenorInMonths (input : LoanInput) : R :=
  match tenorUnit input with
  | months => tenor input
  | days => tenor input / 30
  end.

(** [totalInterest] after the branch on the interest type. *)
Definition totalInterest (input : LoanInput) : R :=
  match interestType input with
  | daily =>
      calculateDailyInterest (amount input) (interestRate input)
                             (tenor input) (tenorUnit input)
  | monthly_flat =>
      calculateMonthlyFlatInterest (amount input) (interestRate input)
                                   (tenorInMonths input)
  | reducing_balance =>
      amortInterest
        (calculateReducingBalanceInterest (amount input) (interestRate input)
                                          (tenorInMonths input) (adminFee input))
  end.

(** [effectiveApr] after the branch, before rounding. *)
Definition rawEffectiveApr (input : LoanInput) : R :=
  match interestType input with
  | daily => (interestRate input / 100) * 365 * 100
  | monthly_flat => (interestRate input / 100) * 12 * 100
  | reducing_balance => (interestRate input / 100) * 12 * 100
  end.

(** [monthlyInstallment] after the branch, before rounding. *)
Definition rawMonthlyInstallment (input : LoanInput) : R :=
  match interestType input with
  | daily =>
      (amount input + totalInterest input + adminFee input)
      / (or_else (tenorInMonths input) 1)
  | monthly_flat =>
      (amount input + totalInterest input + adminFee input)
      / tenorInMonths input
  | reducing_balance =>
      amortInstallment
        (calculateReducingBalanceInterest (amount input) (interestRate input)
                                          (tenorInMonths input) (adminFee input))
  end.

(** [totalRepayment], before rounding. *)
Definition rawTotalRepayment (input : LoanInput) : R :=
  amount input + totalInterest input + adminFee input.

(** [dtiRatio], before rounding. *)
Definition rawDtiRatio (input : LoanInput) : R :=
  (rawMonthlyInstallment input / monthlyIncome input) * 100.

(** Factor 1: OJK registration, 50 points if unregistered. *)
Definition registrationPoints (isOjkRegistered : bool) : Z :=
  if negb isOjkRegistered then 50 else 0.

(** Factor 2: debt-to-income ratio. *)
Definition dtiPoints (dtiRatio : R) : Z :=
  if Rgt_dec dtiRatio 40 then 30
  else if Rgt_dec dtiRatio 30 then 15
  else 0.

(** Factor 3: effective APR. *)
Definition aprPoints (effectiveApr : R) : Z :=
  if Rgt_dec effectiveApr 36 then 30
  else if Rgt_dec effectiveApr 20 then 10
  else 0.

(** The running score after the three factors. *)
Definition computeRiskScore (isOjkRegistered : bool) (dtiRatio effectiveApr : R) : Z :=
  (registrationPoints isOjkRegistered + dtiPoints dtiRatio
   + aprPoints effectiveApr)%Z.

(** The level of a score. *)
Definition classify (riskScore : Z) : RiskLevel :=
  if (riskScore >=? 75)%Z then Sangat_Berbahaya
  else if (riskScore >=? 50)%Z then Tinggi
  else if (riskScore >=? 25)%Z then Sedang
  else Rendah.

(** [Math.round(x * 100) / 100] *)
Definition round2 (x : R) : R := Math_round (x * 100) / 100.

(* ------------------------------------------------------------------ *)
(** ** Specification-side predicates and the inputs of the scenarios *)

(** The constraints of the data model, as the specification lists them. *)
Definition constraints_hold (input : LoanInput) : Prop :=
  amount input > 0 /\ interestRate input > 0 /\ tenor input > 0 /\
  monthlyIncome input > 0 /\ adminFee input >= 0.

(** The daily-interest scenario of the specification; the lender's name is
    not part of it. *)
Definition scenario_daily (name : string) : LoanInput :=
  {| amount := 1000000; interestRate := 1; interestType := daily;
     tenor := 30; tenorUnit := days; adminFee := 50000;
     monthlyIncome := 5000000; lenderName := name |}.

(** The same loan for a borrower earning 3,000,000: all three factors at
    their highest. *)
Definition input_all_severe : LoanInput :=
  {| amount := 1000000; interestRate := 1; interestType := daily;
     tenor := 30; tenorUnit := days; adminFee := 50000;
     monthlyIncome := 3000000; lenderName := "Dana Kilat" |}.

(** An amortizing loan at a rate of zero. *)
Definition input_zero_rate : LoanInput :=
  {| amount := 10000000; interestRate := 0; interestType := reducing_balance;
     tenor := 12; tenorUnit := months; adminFee := 0;
     monthlyIncome := 8000000; lenderName := "Dana Kilat" |}.

(** A flat loan at 2 percent a month over ten months: APR 24, DTI 37.5. *)
Definition input_moderate : LoanInput :=
  {| amount := 1000000; interestRate := 2; interestType := monthly_flat;
     tenor := 10; tenorUnit := months; adminFee := 0;
     monthlyIncome := 320000; lenderName := "Dana Kilat" |}.

(** Another flat loan at 2 percent a month; every other field differs. *)
Definition input_moderate_other : LoanInput :=
  {| amount := 5000000; interestRate := 2; interestType := monthly_flat;
     tenor := 90; tenorUnit := days; adminFee := 25000;
     monthlyIncome := 9000000; lenderName := "Pinjam Cepat" |}.

(** A one-month flat loan whose installment is 30.001 percent of income. *)
Definition input_dti_just_above_30 : LoanInput :=
  {| amount := 20000; interestRate := 1; interestType := monthly_flat;
     tenor := 1; tenorUnit := months; adminFee := 9801;
     monthlyIncome := 100000; lenderName := "Dana Kilat" |}.

(** The same one-month flat loan for a given fee: its installment is
    20,200 + fee, its income 100,000. *)
Definition input_with_fee (fee : R) : LoanInput :=
  {| amount := 20000; interestRate := 1; interestType := monthly_flat;
     tenor := 1; tenorUnit := months; adminFee := fee;
     monthlyIncome := 100000; lenderName := "Dana Kilat" |}.

(** The amortizing scenario of the specification. *)
Definition scenario_reducing : LoanInput :=
  {| amount := 10000000; interestRate := 2; interestType := reducing_balance;
     tenor := 12; tenorUnit := months; adminFee := 0;
     monthlyIncome := 8000000; lenderName := "Dana Kilat" |}.

(* ------------------------------------------------------------------ *)
(** ** The results view (components/loan-results/loan-results.ts)

    [metrics] is the signal input of the component: [None] for [null]. *)

Module LoanResults.

(** [riskColorClass]: [this.metrics()?.riskLevel] is undefined on [null]
    and takes the default branch of the switch. *)
Definition riskColorClass (metrics : option LoanMetrics) : string :=
  let level := option_map riskLevel metrics in
  match level with
  | Some Sangat_Berbahaya => "bg-red-700"
  | Some Tinggi => "bg-orange-600"
  | Some Sedang => "bg-yellow-500 text-gray-900"
  | Some Rendah => "bg-green-700"
  | None => "bg-gray-500"
  end.

(** [riskProgressClass] *)
Definition riskProgressClass (metrics : option LoanMetrics) : string :=
  let score := match metrics with Some m => riskScore m | None => 0%Z end in
  if (score >=? 75)%Z then "bg-red-600"
  else if (score >=? 50)%Z then "bg-orange-500"
  else if (score >=? 25)%Z then "bg-yellow-500"
  else "bg-green-600".

End LoanResults.

(* ------------------------------------------------------------------ *)
(** ** The loan form (components/loan-form/loan-form.ts)

    The value of a numeric control is a number or [null] (an empty field):
    [option R].  The two select controls hold one of their options or
    [null].  The validators are those of Angular's [Validators]:
    [required] rejects [null] and the empty string, [min n] rejects a number
    below [n] and accepts [null], [minLength n] rejects a non-empty string
    shorter than [n]. *)

Module LoanForm.

Record FormValue : Type := {
  fLenderName : string;
  fMonthlyIncome : option R;
  fAmount : option R;
  fAdminFee : option R;
  fInterestRate : option R;
  fInterestType : option InterestType;
  fTenor : option R;
  fTenorUnit : option TenorUnit
}.

(** [Validators.required] on a control holding a number, a choice or a
    string. *)
Definition required {A : Type} (v : option A) : bool :=
  match v with Some _ => true | None => false end.

Definition required_string (s : string) : bool :=
  negb (Nat.eqb (String.length s) 0).

(** [Validators.min(n)] *)
Definition min (n : R) (v : option R) : bool :=
  match v with
  | Some x => if Rlt_dec x n then false else true
  | None => true
  end.

(** [Validators.minLength(n)] *)
Definition minLength (n : nat) (s : string) : bool :=
  if Nat.eqb (String.length s) 0 then true
  else negb (Nat.ltb (String.length s) n).

(** [this.form.valid]: every validator of every control of the group
    accepts. *)
Definition valid (v : FormValue) : bool :=
  (required_string (fLenderName v) && minLength 2 (fLenderName v))
  && (required (fMonthlyIncome v) && min 1 (fMonthlyIncome v))
  && (required (fAmount v) && min 1 (fAmount v))
  && min 0 (fAdminFee v)
  && (required (fInterestRate v) && min 0.01 (fInterestRate v))
  && required (fInterestType v)
  && (required (fTenor v) && min 1 (fTenor v))
  && required (fTenorUnit v).

(** [Number(x)] of a control value: a number is itself, [null] is 0. *)
Definition Number (v : option R) : R :=
  match v with Some x => x | None => 0 end.

(** [formValue.adminFee || 0] *)
Definition or_zero (v : option R) : option R :=
  match v with
  | Some x => if Req_dec_T x 0 then Some 0 else Some x
  | None => Some 0
  end.

(** [processForm]: the input emitted through [calculate], or [None] when
    the form is invalid and only marked as touched.  The cast of the form
    value to [LoanInput] is unchecked in the source; on a valid form both
    selects hold a choice. *)
Definition processForm (v : FormValue) : option LoanInput :=
  if valid v then
    match fInterestType v, fTenorUnit v with
    | Some type, Some unit =>
        Some {| amount := Number (fAmount v);
                interestRate := Number (fInterestRate v);
                interestType := type;
                tenor := Number (fTenor v);
                tenorUnit := unit;
                adminFee := Number (or_zero (fAdminFee v));
                monthlyIncome := Number (fMonthlyIncome v);
                lenderName := fLenderName v |}
    | _, _ => None
    end
  else None.

End LoanForm.

(* ------------------------------------------------------------------ *)
(** ** The services around the calculator and the root component

    An HTTP call is read by its outcome: the body of the response, or the
    error the observable fails with.  [analyzeLoan] is read as one run of its
    pipeline to completion, from the state of the signals before the call to
    their state after it. *)

(** [VerifyLenderResponse] *)
Record VerifyLenderResponse : Type := {
  isRegistered : bool;
  isIllegal : option bool;
  responseLenderName : string;
  responseMessage : string
}.

(** [ChatResponse] *)
Record ChatResponse : Type := { result : string }.

Module OjkValidator.

(** [verify]: [map(response => response.isRegistered)] and, on error,
    [of(false)]. *)
Definition verify (http : outcome VerifyLenderResponse) : bool :=
  match http with
  | Returned response => isRegistered response
  | Thrown _ => false
  end.

End OjkValidator.

Module AiClient.

Definition msg_no_explanation : string := "Gagal menghasilkan penjelasan".
Definition msg_ai_failed : string := "Gagal membuat analisis dari AI".

(** The response handling of [requestExplanation]:
    [map(res => res.result || '...')] and, on error, a thrown [Error]. *)
Definition requestExplanation (http : outcome ChatResponse) : outcome string :=
  match http with
  | Returned res =>
      Returned (if String.eqb (result res) "" then msg_no_explanation
                else result res)
  | Thrown _ => Thrown msg_ai_failed
  end.

End AiClient.

Module App.

(** The signals of the root component. *)
Record State : Type := {
  hasResult : bool;
  showEmptyState : bool;
  currentMetrics : option LoanMetrics;
  currentInput : option LoanInput;
  isOjkRegistered : bool;
  aiExplanation : string;
  isAiLoading : bool;
  hasAiError : bool
}.

(** The initial values of the signals. *)
Definition initial : State :=
  {| hasResult := false; showEmptyState := true; currentMetrics := None;
     currentInput := None; isOjkRegistered := false; aiExplanation := "";
     isAiLoading := false; hasAiError := false |}.

(** [analyzeLoan] (the pipeline version).  [verifyHttp] and [chatHttp] are
    the outcomes of the two HTTP calls it makes.  An exception of
    [calculateMetrics] inside [tap] becomes the error of the stream: the
    [error] handler of the subscription runs, then [finalize]. *)
Definition analyzeLoan (s : State) (input : LoanInput)
    (verifyHttp : outcome VerifyLenderResponse)
    (chatHttp : outcome ChatResponse) : State :=
  (* 1. Reset State *)
  let s :=
    {| hasResult := hasResult s; showEmptyState := showEmptyState s;
       currentMetrics := currentMetrics s; currentInput := Some input;
       isOjkRegistered := isOjkRegistered s; aiExplanation := "";
       isAiLoading := true; hasAiError := false |} in
  (* 2. Start Reactive Flow *)
  let ojkStatus := OjkValidator.verify verifyHttp in
  match calculateMetrics input ojkStatus with
  | Thrown _ =>
      (* error handler, then finalize *)
      {| hasResult := hasResult s; showEmptyState := showEmptyState s;
         currentMetrics := currentMetrics s; currentInput := currentInput s;
         isOjkRegistered := isOjkRegistered s;
         aiExplanation := aiExplanation s;
         isAiLoading := false; hasAiError := true |}
  | Returned metrics =>
      (* tap: Calculate Metrics & Update UI *)
      match AiClient.requestExplanation chatHttp with
      | Returned explanation =>
          {| hasResult := true; showEmptyState := false;
             currentMetrics := Some metrics; currentInput := currentInput s;
             isOjkRegistered := ojkStatus; aiExplanation := explanation;
             isAiLoading := false; hasAiError := hasAiError s |}
      | Thrown _ =>
          {| hasResult := true; showEmptyState := false;
             currentMetrics := Some metrics; currentInput := currentInput s;
             isOjkRegistered := ojkStatus; aiExplanation := aiExplanation s;
             isAiLoading := false; hasAiError := true |}
      end
  end.

End App.

(* ------------------------------------------------------------------ *)
(** ** The calculator in binary64 arithmetic

    The same functions with [number] read as it is at run time: an IEEE 754
    binary64 value, not-a-number and the infinities included.  Arithmetic
    and comparisons are those of the kernel's primitive floats.
    [Math.round] is written out; [Math.pow], whose rounding ECMAScript
    leaves to the implementation, is a parameter of the functions that call
    it. *)

Module Binary64.

Import Floats.
Local Open Scope float_scope.
#[local] Set Warnings "-inexact-float".

(** The largest integer of [number] not above [x], for a finite [x] below
    2^52 in magnitude (a larger one is an integer already). *)
Definition Math_floor (x : float) : float :=
  if is_nan x || (0x1p52 <=? abs x) then x
  else
    let nearest :=
      if 0 <=? x then (x + 0x1p52) - 0x1p52 else (x - 0x1p52) + 0x1p52 in
    if x <? nearest then nearest - 1 else nearest.

(** [Math.round x]: [x] itself when it is not-a-number, infinite or an
    integer; otherwise the integer nearest to [x], a tie going towards
    plus infinity; a result of zero keeps the sign of [x]. *)
Definition Math_round (x : float) : float :=
  if is_nan x || (0x1p52 <=? abs x) then x
  else
    let floor := Math_floor x in
    let rounded := if 0.5 <=? x - floor then floor + 1 else floor in
    if (rounded =? 0) && ((x <? 0) || (1 / x <? 0)) then -0 else rounded.

(** [a || b] on numbers: [b] when [a] is zero or not-a-number. *)
Definition or_else (a b : float) : float :=
  if (a =? 0) || is_nan a then b else a.

(** [if (cond) throw new Error(msg);] *)
Definition throw_if (cond : bool) (msg : string) : outcome unit :=
  if cond then Thrown msg else Returned tt.

Record LoanInput : Type := {
  amount : float;
  interestRate : float;
  interestType : InterestType;
  tenor : float;
  tenorUnit : TenorUnit;
  adminFee : float;
  monthlyIncome : float;
  lenderName : string
}.

Record LoanMetrics : Type := {
  totalRepayment : float;
  monthlyInstallment : float;
  effectiveApr : float;
  dtiRatio : float;
  riskScore : Z;
  riskLevel : RiskLevel
}.

(** [validateInput] *)
Definition validateInput (input : LoanInput) : outcome unit :=
  throw_if (amount input <=? 0) LoanCalculator.msg_amount ;;
  throw_if (interestRate input <=? 0) LoanCalculator.msg_interestRate ;;
  throw_if (tenor input <=? 0) LoanCalculator.msg_tenor ;;
  throw_if (monthlyIncome input <=? 0) LoanCalculator.msg_monthlyIncome ;;
  throw_if (adminFee input <? 0) LoanCalculator.msg_adminFee.

(** [calculateDailyInterest] *)
Definition calculateDailyInterest
    (principal dailyRate tenor : float) (tenorUnit : TenorUnit) : float :=
  let dailyRateDecimal := dailyRate / 100 in
  let tenorInDays := match tenorUnit with days => tenor | months => tenor * 30 end in
  principal * dailyRateDecimal * tenorInDays.

(** [calculateMonthlyFlatInterest] *)
Definition calculateMonthlyFlatInterest
    (principal monthlyRate tenorInMonths : float) : float :=
  let monthlyRateDecimal := monthlyRate / 100 in
  principal * monthlyRateDecimal * tenorInMonths.

Record Amortization : Type := {
  amortInstallment : float;
  amortInterest : float
}.

Section WithMathPow.

Variable Math_pow : float -> float -> float.

(** [calculateReducingBalanceInterest] *)
Definition calculateReducingBalanceInterest
    (principal monthlyRate tenorInMonths adminFee : float) : Amortization :=
  let monthlyRateDecimal := monthlyRate / 100 in
  if monthlyRateDecimal =? 0 then
    {| amortInstallment := (principal + adminFee) / tenorInMonths;
       amortInterest := 0 |}
  else
    let numerator :=
      monthlyRateDecimal * Math_pow (1 + monthlyRateDecimal) tenorInMonths in
    let denominator := Math_pow (1 + monthlyRateDecimal) tenorInMonths - 1 in
    let monthlyInstallmentPrincipal := (principal * numerator) / denominator in
    let monthlyInstallment := monthlyInstallmentPrincipal + adminFee / tenorInMonths in
    let totalInterest := monthlyInstallmentPrincipal * tenorInMonths - principal in
    {| amortInstallment := monthlyInstallment;
       amortInterest := totalInterest |}.

(** [calculateMetrics] *)
Definition calculateMetrics (input : LoanInput) (isOjkRegistered : bool)
  : outcome LoanMetrics :=
  validateInput input ;;
  let principal := amount input in
  let tenorInMonths :=
    match tenorUnit input with
    | months => tenor input
    | days => tenor input / 30
    end in
  let '(totalInterest, effectiveApr, monthlyInstallment) :=
    match interestType input with
    | daily =>
        let totalInterest :=
          calculateDailyInterest principal (interestRate input)
                                 (tenor input) (tenorUnit input) in
        (totalInterest,
         (interestRate input / 100) * 365 * 100,
         (principal + totalInterest + adminFee input) / (or_else tenorInMonths 1))
    | monthly_flat =>
        let totalInterest :=
          calculateMonthlyFlatInterest principal (interestRate input)
                                       tenorInMonths in
        (totalInterest,
         (interestRate input / 100) * 12 * 100,
         (principal + totalInterest + adminFee input) / tenorInMonths)
    | reducing_balance =>
        let result :=
          calculateReducingBalanceInterest principal (interestRate input)
                                           tenorInMonths (adminFee input) in
        (amortInterest result,
         (interestRate input / 100) * 12 * 100,
         amortInstallment result)
    end in
  let totalRepayment := principal + totalInterest + adminFee input in
  let dtiRatio := (monthlyInstallment / monthlyIncome input) * 100 in
  let riskScore := 0%Z in
  let riskScore :=
    if negb isOjkRegistered then (riskScore + 50)%Z else riskScore in
  let riskScore :=
    if 40 <? dtiRatio then (riskScore + 30)%Z
    else if 30 <? dtiRatio then (riskScore + 15)%Z
    else riskScore in
  let riskScore :=
    if 36 <? effectiveApr then (riskScore + 30)%Z
    else if 20 <? effectiveApr then (riskScore + 10)%Z
    else riskScore in
  let riskLevel :=
    if (riskScore >=? 75)%Z then Sangat_Berbahaya
    else if (riskScore >=? 50)%Z then Tinggi
    else if (riskScore >=? 25)%Z then Sedang
    else Rendah in
  Returned {| totalRepayment := Math_round (totalRepayment * 100) / 100;
              monthlyInstallment := Math_round (monthlyInstallment * 100) / 100;
              effectiveApr := Math_round (effectiveApr * 100) / 100;
              dtiRatio := Math_round (dtiRatio * 100) / 100;
              riskScore := riskScore;
              riskLevel := riskLevel |}.

End WithMathPow.

(** The constraints of the data model on binary64 fields. *)
Definition constraints_hold (input : LoanInput) : Prop :=
  (0 <? amount input) = true /\
  (0 <? interestRate input) = true /\
  (0 <? tenor input) = true /\
  (0 <? monthlyIncome input) = true /\
  (0 <=? adminFee input) = true.

(** The daily scenario with an amount that is not a number. *)
Definition input_NaN_amount : LoanInput :=
  {| amount := nan; interestRate := 1; interestType := daily;
     tenor := 30; tenorUnit := days; adminFee := 50000;
     monthlyIncome := 5000000; lenderName := "Dana Kilat" |}.

(** An amortizing loan at 100 percent a month over 1100 months: the growth
    factor 2^1100 is beyond the range of binary64. *)
Definition input_overflowing_power : LoanInput :=
  {| amount := 1000000; interestRate := 100; interestType := reducing_balance;
     tenor := 1100; tenorUnit := months; adminFee := 0;
     monthlyIncome := 5000000; lenderName := "Dana Kilat" |}.

(** An amortizing loan at a rate so small that [1 + rate / 100] is 1. *)
Definition input_absorbed_rate : LoanInput :=
  {| amount := 1000000; interestRate := 1e-15; interestType := reducing_balance;
     tenor := 12; tenorUnit := months; adminFee := 0;
     monthlyIncome := 5000000; lenderName := "Dana Kilat" |}.

(** A flat loan over the smallest positive number of days. *)
Definition input_vanishing_tenor : LoanInput :=
  {| amount := 1000000; interestRate := 1; interestType := monthly_flat;
     tenor := 0x1p-1074; tenorUnit := days; adminFee := 0;
     monthlyIncome := 5000000; lenderName := "Dana Kilat" |}.

(** The one-month flat loan of 20,000 at 1 percent for a given fee and an
    income of 100,000. *)
Definition input_with_fee (fee : float) : LoanInput :=
  {| amount := 20000; interestRate := 1; interestType := monthly_flat;
     tenor := 1; tenorUnit := months; adminFee := fee;
     monthlyIncome := 100000; lenderName := "Dana Kilat" |}.

(** The scenario inputs of the real-number embedding, in binary64. *)
Definition scenario_daily (name : string) : LoanInput :=
  {| amount := 1000000; interestRate := 1; interestType := daily;
     tenor := 30; tenorUnit := days; adminFee := 50000;
     monthlyIncome := 5000000; lenderName := name |}.

Definition input_all_severe : LoanInput :=
  {| amount := 1000000; interestRate := 1; interestType := daily;
     tenor := 30; tenorUnit := days; adminFee := 50000;
     monthlyIncome := 3000000; lenderName := "Dana Kilat" |}.

Definition input_moderate : LoanInput :=
  {| amount := 1000000; interestRate := 2; interestType := monthly_flat;
     tenor := 10; tenorUnit := months; adminFee := 0;
     monthlyIncome := 320000; lenderName := "Dana Kilat" |}.

(** A power function for the witnesses: repeated multiplication, for an
    exponent that is a whole number.  It returns, as every [Math.pow] does,
    1 for the base 1 and infinity for 2^1100. *)
Fixpoint pow_nat (b : float) (n : nat) : float :=
  match n with
  | O => 1
  | S n => b * pow_nat b n
  end.

Definition whole_part (e : float) : nat :=
  match Prim2SF e with
  | S754_finite false m ex =>
      Z.to_nat (if (0 <=? ex)%Z then Z.shiftl (Zpos m) ex
                else Z.shiftr (Zpos m) (- ex))
  | _ => O
  end.

Definition Math_pow_whole (b e : float) : float := pow_nat b (whole_part e).

End Binary64.

(* ------------------------------------------------------------------ *)
(** ** Inputs derived from an input, for the comparisons below *)

(** The levels in the order of the classification. *)
Definition level_rank (level : RiskLevel) : Z :=
  match level with
  | Rendah => 0 | Sedang => 1 | Tinggi => 2 | Sangat_Berbahaya => 3
  end.


(** A valid form, as a user fills it in. *)
Definition form_filled : LoanForm.FormValue :=
  {| LoanForm.fLenderName := "Dana Kilat";
     LoanForm.fMonthlyIncome := Some 5000000;
     LoanForm.fAmount := Some 1000000;
     LoanForm.fAdminFee := None;
     LoanForm.fInterestRate := Some 1;
     LoanForm.fInterestType := Some daily;
     LoanForm.fTenor := Some 30;
     LoanForm.fTenorUnit := Some days |}.

(* ------------------------------------------------------------------ *)
(** ** Proof support *)

(** Settle every comparison of the goal whose outcome follows from the
    context by linear arithmetic; the others are split. *)
Ltac split_comparisons :=
  repeat match goal with
  | |- context [Rle_dec ?a ?b] => destruct (Rle_dec a b); try (exfalso; lra)
  | |- context [Rlt_dec ?a ?b] => destruct (Rlt_dec a b); try (exfalso; lra)
  | |- context [Rgt_dec ?a ?b] => destruct (Rgt_dec a b); try (exfalso; lra)
  | |- context [Req_dec_T ?a ?b] => destruct (Req_dec_T a b); try (exfalso; lra)
  end.

(** Project the fields of a literal input, leaving the numerals alone. *)
Ltac fields :=
  cbn [amount interestRate interestType tenor tenorUnit adminFee monthlyIncome
       lenderName totalRepayment monthlyInstallment effectiveApr dtiRatio
       riskScore riskLevel amortInstallment amortInterest bind throw_if] in *.

(** Open the arithmetic of [calculateMetrics] on a flat or daily loan. *)
Ltac open_calc :=
  unfold rawTotalRepayment, rawDtiRatio, rawMonthlyInstallment,
    rawEffectiveApr, totalInterest, tenorInMonths,
    calculateDailyInterest, calculateMonthlyFlatInterest, or_else in *;
  fields.

Lemma Math_round_nearest (x : R) (z : Z) :
  IZR z - / 2 <= x < IZR z + / 2 -> Math_round x = IZR z.
Proof.
  intros [Hlo Hhi]. unfold Math_round. f_equal. symmetry.
  apply Int_part_spec. lra.
Qed.

Lemma round2_nearest (x : R) (z : Z) :
  IZR z - / 2 <= x * 100 < IZR z + / 2 -> round2 x = IZR z / 100.
Proof.
  intros H. unfold round2. now rewrite (Math_round_nearest _ z H).
Qed.

(** A value with at most two decimals is left as it is. *)
Lemma round2_hundredths (x : R) (z : Z) : x * 100 = IZR z -> round2 x = x.
Proof.
  intros H. rewrite (round2_nearest x z) by lra. lra.
Qed.

Lemma validateInput_passes (input : LoanInput) :
  validateInput input = Returned tt <-> constraints_hold input.
Proof.
  unfold validateInput, constraints_hold. split.
  - intros H. revert H. fields. split_comparisons; try discriminate.
    intros _. repeat split; lra.
  - intros (Ha & Hr & Ht & Hm & Hf). fields. split_comparisons. reflexivity.
Qed.

(** What a returning call of [calculateMetrics] returns, field by field. *)
Lemma calculateMetrics_Returned (input : LoanInput) (isOjkRegistered : bool) :
  validateInput input = Returned tt ->
  calculateMetrics input isOjkRegistered =
    Returned
      {| totalRepayment := round2 (rawTotalRepayment input);
         monthlyInstallment := round2 (rawMonthlyInstallment input);
         effectiveApr := round2 (rawEffectiveApr input);
         dtiRatio := round2 (rawDtiRatio input);
         riskScore :=
           computeRiskScore isOjkRegistered (rawDtiRatio input)
                            (rawEffectiveApr input);
         riskLevel :=
           classify (computeRiskScore isOjkRegistered (rawDtiRatio input)
                                      (rawEffectiveApr input)) |}.
Proof.
  intros H. unfold calculateMetrics. rewrite H. cbn [bind].
  unfold rawTotalRepayment, rawDtiRatio, rawMonthlyInstallment,
    rawEffectiveApr, totalInterest, tenorInMonths, round2,
    computeRiskScore, registrationPoints, dtiPoints, aprPoints, classify.
  destruct (interestType input), isOjkRegistered; cbn [negb];
    split_comparisons; reflexivity.
Qed.

Lemma calculateMetrics_Thrown (input : LoanInput) (isOjkRegistered : bool)
    (msg : string) :
  validateInput input = Thrown msg ->
  calculateMetrics input isOjkRegistered = Thrown msg.
Proof.
  intros H. unfold calculateMetrics. rewrite H. reflexivity.
Qed.

Lemma calculateMetrics_inv (input : LoanInput) (isOjkRegistered : bool)
    (m : LoanMetrics) :
  calculateMetrics input isOjkRegistered = Returned m ->
  validateInput input = Returned tt.
Proof.
  unfold calculateMetrics. destruct (validateInput input) as [[]|msg]; cbn.
  - reflexivity.
  - discriminate.
Qed.

(** The fields of a returned record, from the equation of the call. *)
Lemma calculateMetrics_fields (input : LoanInput) (isOjkRegistered : bool)
    (m : LoanMetrics) :
  calculateMetrics input isOjkRegistered = Returned m ->
  totalRepayment m = round2 (rawTotalRepayment input) /\
  monthlyInstallment m = round2 (rawMonthlyInstallment input) /\
  effectiveApr m = round2 (rawEffectiveApr input) /\
  dtiRatio m = round2 (rawDtiRatio input) /\
  riskScore m =
    computeRiskScore isOjkRegistered (rawDtiRatio input)
                     (rawEffectiveApr input) /\
  riskLevel m = classify (riskScore m).
Proof.
  intros H. pose proof (calculateMetrics_inv _ _ _ H) as Hv.
  rewrite (calculateMetrics_Returned _ _ Hv) in H.
  injection H as <-. fields. repeat split; reflexivity.
Qed.

(** The three factors and their sum stay within 0 .. 110. *)
Lemma computeRiskScore_range (reg : bool) (dti apr : R) :
  (0 <= computeRiskScore reg dti apr <= 110)%Z.
Proof.
  unfold computeRiskScore, registrationPoints, dtiPoints, aprPoints.
  destruct reg; cbn [negb]; split_comparisons; lia.
Qed.

(* ------------------------------------------------------------------ *)
(** ** The scenarios, evaluated *)

Ltac scenario_valid :=
  apply validateInput_passes; unfold constraints_hold; fields; lra.

Lemma scenario_daily_valid (name : string) :
  validateInput (scenario_daily name) = Returned tt.
Proof. unfold scenario_daily. scenario_valid. Qed.

Lemma input_all_severe_valid : validateInput input_all_severe = Returned tt.
Proof. unfold input_all_severe. scenario_valid. Qed.

Lemma input_moderate_valid : validateInput input_moderate = Returned tt.
Proof. unfold input_moderate. scenario_valid. Qed.

Lemma input_dti_just_above_30_valid :
  validateInput input_dti_just_above_30 = Returned tt.
Proof. unfold input_dti_just_above_30. scenario_valid. Qed.

Lemma scenario_reducing_valid : validateInput scenario_reducing = Returned tt.
Proof. unfold scenario_reducing. scenario_valid. Qed.

Lemma scenario_daily_locals (name : string) :
  totalInterest (scenario_daily name) = 300000 /\
  rawEffectiveApr (scenario_daily name) = 365 /\
  rawMonthlyInstallment (scenario_daily name) = 1350000 /\
  rawTotalRepayment (scenario_daily name) = 1350000 /\
  rawDtiRatio (scenario_daily name) = 27.
Proof.
  unfold scenario_daily. open_calc. split_comparisons. repeat split; lra.
Qed.

Lemma input_all_severe_locals :
  rawEffectiveApr input_all_severe = 365 /\
  rawDtiRatio input_all_severe = 45.
Proof.
  unfold input_all_severe. open_calc. split_comparisons. repeat split; lra.
Qed.

Lemma input_moderate_locals :
  rawEffectiveApr input_moderate = 24 /\
  rawDtiRatio input_moderate = 37.5.
Proof.
  unfold input_moderate. open_calc. repeat split; lra.
Qed.

Lemma input_dti_just_above_30_locals :
  rawEffectiveApr input_dti_just_above_30 = 12 /\
  rawDtiRatio input_dti_just_above_30 = 30.001.
Proof.
  unfold input_dti_just_above_30. open_calc. repeat split; lra.
Qed.

(** The score of given (unrounded) ratios, by running the three factors. *)
Ltac run_score :=
  unfold computeRiskScore, registrationPoints, dtiPoints, aprPoints;
  cbn [negb]; split_comparisons; try reflexivity.

Lemma score_27_365 : computeRiskScore false 27 365 = 80%Z.
Proof. run_score. Qed.

Lemma score_45_365 : computeRiskScore false 45 365 = 110%Z.
Proof. run_score. Qed.

Lemma score_37_24 : computeRiskScore false 37.5 24 = 75%Z.
Proof. run_score. Qed.

Lemma score_30001_12 : computeRiskScore true 30.001 12 = 15%Z.
Proof. run_score. Qed.

Lemma score_30_12 : computeRiskScore true 30 12 = 0%Z.
Proof. run_score. Qed.

(* ------------------------------------------------------------------ *)
(** ** C1: the range of the risk score *)

(** C1, at the input that breaks it: for the unregistered daily loan of
    1,000,000 at 1 percent a day over 30 days with a fee of 50,000 and a
    monthly income of 3,000,000, [calculateMetrics] returns a risk score of
    50 + 30 + 30 = 110, above the 100 of the specification. *)
Theorem riskScore_all_factors_110 :
  exists m : LoanMetrics,
    calculateMetrics input_all_severe false = Returned m /\
    riskScore m = 110%Z /\ (100 < riskScore m)%Z.
Proof.
  eexists. split.
  - apply calculateMetrics_Returned, input_all_severe_valid.
  - fields. destruct input_all_severe_locals as [-> ->].
    rewrite score_45_365. split; [reflexivity | lia].
Qed.

(* ------------------------------------------------------------------ *)
(** ** C5: the daily scenario *)

(** C5: for amount 1,000,000, rate 1 daily, tenor 30 days, fee 50,000,
    income 5,000,000 and an unregistered lender, [calculateMetrics] returns
    totalRepayment 1,350,000, monthlyInstallment 1,350,000, effectiveApr 365,
    dtiRatio 27, riskScore 80 and riskLevel Sangat Berbahaya. *)
Theorem scenario_daily_metrics (name : string) :
  calculateMetrics (scenario_daily name) false =
    Returned {| totalRepayment := 1350000;
                monthlyInstallment := 1350000;
                effectiveApr := 365;
                dtiRatio := 27;
                riskScore := 80;
                riskLevel := Sangat_Berbahaya |}.
Proof.
  rewrite calculateMetrics_Returned by apply scenario_daily_valid.
  destruct (scenario_daily_locals name) as (_ & -> & -> & -> & ->).
  rewrite score_27_365.
  rewrite (round2_hundredths 1350000 135000000) by lra.
  rewrite (round2_hundredths 365 36500) by lra.
  rewrite (round2_hundredths 27 2700) by lra.
  reflexivity.
Qed.

(* ------------------------------------------------------------------ *)
(** ** Validation over the reals *)

Lemma messages_distinct :
  msg_amount <> msg_interestRate /\ msg_amount <> msg_tenor /\
  msg_amount <> msg_monthlyIncome /\ msg_amount <> msg_adminFee /\
  msg_interestRate <> msg_tenor /\ msg_interestRate <> msg_monthlyIncome /\
  msg_interestRate <> msg_adminFee /\ msg_tenor <> msg_monthlyIncome /\
  msg_tenor <> msg_adminFee /\ msg_monthlyIncome <> msg_adminFee.
Proof. repeat split; discriminate. Qed.

(** The outcome of [validateInput], check by check. *)
Lemma validateInput_cases (input : LoanInput) :
  (~ amount input > 0 /\ validateInput input = Thrown msg_amount) \/
  (amount input > 0 /\ ~ interestRate input > 0 /\
   validateInput input = Thrown msg_interestRate) \/
  (amount input > 0 /\ interestRate input > 0 /\ ~ tenor input > 0 /\
   validateInput input = Thrown msg_tenor) \/
  (amount input > 0 /\ interestRate input > 0 /\ tenor input > 0 /\
   ~ monthlyIncome input > 0 /\
   validateInput input = Thrown msg_monthlyIncome) \/
  (amount input > 0 /\ interestRate input > 0 /\ tenor input > 0 /\
   monthlyIncome input > 0 /\ ~ adminFee input >= 0 /\
   validateInput input = Thrown msg_adminFee) \/
  (constraints_hold input /\ validateInput input = Returned tt).
Proof.
  unfold validateInput, constraints_hold.
  destruct (Rle_dec (amount input) 0);
    [left; fields; repeat split; lra | right].
  destruct (Rle_dec (interestRate input) 0);
    [left; fields; repeat split; lra | right].
  destruct (Rle_dec (tenor input) 0);
    [left; fields; repeat split; lra | right].
  destruct (Rle_dec (monthlyIncome input) 0);
    [left; fields; repeat split; lra | right].
  destruct (Rlt_dec (adminFee input) 0);
    [left; fields; repeat split; lra | right].
  fields. repeat split; try lra.
Qed.

(** Validation when every field is a real number (each comparable with 0;
    a field that is not a number is treated in [Binary64]):
    [calculateMetrics] throws a validation error exactly when one of
    amount > 0, interestRate > 0, tenor > 0, monthlyIncome > 0, adminFee >= 0
    is violated; the message is that of the first violated constraint in this
    order; a call that throws returns no metrics. *)
Theorem calculateMetrics_validation (input : LoanInput) (isOjkRegistered : bool) :
  let result := calculateMetrics input isOjkRegistered in
  ((exists msg, result = Thrown msg) <-> ~ constraints_hold input) /\
  (result = Thrown msg_amount <-> ~ amount input > 0) /\
  (result = Thrown msg_interestRate <->
     amount input > 0 /\ ~ interestRate input > 0) /\
  (result = Thrown msg_tenor <->
     amount input > 0 /\ interestRate input > 0 /\ ~ tenor input > 0) /\
  (result = Thrown msg_monthlyIncome <->
     amount input > 0 /\ interestRate input > 0 /\ tenor input > 0 /\
     ~ monthlyIncome input > 0) /\
  (result = Thrown msg_adminFee <->
     amount input > 0 /\ interestRate input > 0 /\ tenor input > 0 /\
     monthlyIncome input > 0 /\ ~ adminFee input >= 0) /\
  (forall msg, result = Thrown msg ->
     msg = msg_amount \/ msg = msg_interestRate \/ msg = msg_tenor \/
     msg = msg_monthlyIncome \/ msg = msg_adminFee) /\
  (forall msg m, result = Thrown msg -> result <> Returned m).
Proof.
  cbv zeta.
  destruct messages_distinct as (D1 & D2 & D3 & D4 & D5 & D6 & D7 & D8 & D9 & D10).
  assert (Hinj : forall a b : string,
             @Thrown LoanMetrics a = Thrown b -> a = b)
    by (intros a b E; now injection E).
  destruct (validateInput_cases input)
    as [(Ha & E) | [(Ha & Hr & E) | [(Ha & Hr & Ht & E)
      | [(Ha & Hr & Ht & Hm & E) | [(Ha & Hr & Ht & Hm & Hf & E) | (Hc & E)]]]]];
    first [ rewrite (calculateMetrics_Thrown _ isOjkRegistered _ E)
          | rewrite (calculateMetrics_Returned _ isOjkRegistered E) ];
    unfold constraints_hold in *;
    repeat match goal with |- _ /\ _ => split end;
    try (split; intro H;
         solve [ eauto | tauto | discriminate H
               | apply Hinj in H; congruence
               | destruct H as [? H0]; discriminate H0 ]);
    try (intros msg H; apply Hinj in H; subst; tauto);
    try (intros msg H; discriminate H);
    try (intros msg m H; rewrite H; discriminate);
    try (intros msg m H; discriminate).
Qed.

(* ------------------------------------------------------------------ *)
(** ** C2: an amortizing loan at a rate of zero *)

(** C2 as stated fails: the amortizing loan at rate 0 whose other fields
    satisfy their constraints is rejected by validation, so no repayment and
    no installment are returned. *)
Lemma zero_rate_is_rejected :
  interestType input_zero_rate = reducing_balance /\
  interestRate input_zero_rate = 0 /\
  amount input_zero_rate > 0 /\ tenor input_zero_rate > 0 /\
  monthlyIncome input_zero_rate > 0 /\ adminFee input_zero_rate >= 0 /\
  calculateMetrics input_zero_rate true = Thrown msg_interestRate /\
  calculateMetrics input_zero_rate false = Thrown msg_interestRate /\
  (forall reg m, calculateMetrics input_zero_rate reg <> Returned m).
Proof.
  assert (E : validateInput input_zero_rate = Thrown msg_interestRate).
  { unfold validateInput, input_zero_rate. fields.
    split_comparisons; fields; reflexivity. }
  unfold input_zero_rate at 1 2 3 4 5 6. fields.
  repeat match goal with |- _ /\ _ => split end; try lra; try reflexivity.
  - apply calculateMetrics_Thrown, E.
  - apply calculateMetrics_Thrown, E.
  - intros reg m. rewrite (calculateMetrics_Thrown _ reg _ E). discriminate.
Qed.

(** C2, amended: [calculateMetrics] rejects a rate of zero with the message
    of the interest-rate check whenever the amount is positive, whatever the
    convention; the zero-rate formulas are those of
    [calculateReducingBalanceInterest] called with a monthly rate of 0, which
    returns a total interest of 0 and the installment
    (principal + adminFee) / tenorInMonths. *)
Theorem zero_rate_amended :
  (forall input reg,
     interestRate input = 0 -> amount input > 0 ->
     calculateMetrics input reg = Thrown msg_interestRate) /\
  (forall principal tenorInMonths adminFee,
     calculateReducingBalanceInterest principal 0 tenorInMonths adminFee =
       {| amortInstallment := (principal + adminFee) / tenorInMonths;
          amortInterest := 0 |}).
Proof.
  split.
  - intros input reg Hr Ha. apply calculateMetrics_Thrown.
    unfold validateInput. split_comparisons; fields; reflexivity.
  - intros principal n fee. unfold calculateReducingBalanceInterest.
    cbv zeta. split_comparisons. reflexivity.
Qed.

(** The amended C2 at the zero-rate loan. *)
Lemma zero_rate_amended_witness :
  calculateMetrics input_zero_rate true = Thrown msg_interestRate.
Proof.
  apply (proj1 zero_rate_amended input_zero_rate true).
  - reflexivity.
  - unfold input_zero_rate. fields. lra.
Defined.

(* ------------------------------------------------------------------ *)
(** ** C4: the two flat conventions *)

(** C4: on a validated input, the daily convention computes
    totalInterest = amount * (interestRate/100) * tenorInDays, with
    tenorInDays = tenor for days and tenor * 30 for months, and
    effectiveApr = (interestRate/100) * 365 * 100; the monthly flat convention
    computes totalInterest = amount * (interestRate/100) * tenorInMonths, with
    tenorInMonths = tenor for months and tenor / 30 for days, and
    effectiveApr = (interestRate/100) * 12 * 100.  The returned totalRepayment
    and effectiveApr are these values, rounded to two decimals. *)
Theorem flat_interest_formulas
    (input : LoanInput) (isOjkRegistered : bool) (m : LoanMetrics) :
  calculateMetrics input isOjkRegistered = Returned m ->
  let rate := interestRate input / 100 in
  let tenorInDays :=
    match tenorUnit input with days => tenor input | months => tenor input * 30 end in
  let tenorInMonths :=
    match tenorUnit input with months => tenor input | days => tenor input / 30 end in
  (interestType input = daily ->
     totalInterest input = amount input * rate * tenorInDays /\
     rawEffectiveApr input = rate * 365 * 100 /\
     totalRepayment m =
       round2 (amount input + amount input * rate * tenorInDays + adminFee input) /\
     effectiveApr m = round2 (rate * 365 * 100)) /\
  (interestType input = monthly_flat ->
     totalInterest input = amount input * rate * tenorInMonths /\
     rawEffectiveApr input = rate * 12 * 100 /\
     totalRepayment m =
       round2 (amount input + amount input * rate * tenorInMonths + adminFee input) /\
     effectiveApr m = round2 (rate * 12 * 100)).
Proof.
  intros H. cbv zeta.
  destruct (calculateMetrics_fields _ _ _ H) as (Htot & _ & Hapr & _).
  rewrite Htot, Hapr.
  unfold rawTotalRepayment, rawEffectiveApr, totalInterest, tenorInMonths.
  split; intros ->;
    unfold calculateDailyInterest, calculateMonthlyFlatInterest;
    repeat split; reflexivity.
Qed.

(** C4 at the daily scenario and at the flat loan of 2 percent a month. *)
Lemma flat_interest_formulas_witness :
  totalInterest (scenario_daily "Dana Kilat") = 1000000 * (1 / 100) * 30 /\
  totalInterest input_moderate = 1000000 * (2 / 100) * 10.
Proof.
  split.
  - apply (flat_interest_formulas (scenario_daily "Dana Kilat") false _
             (calculateMetrics_Returned _ false (scenario_daily_valid _))).
    reflexivity.
  - apply (flat_interest_formulas input_moderate false _
             (calculateMetrics_Returned _ false input_moderate_valid)).
    reflexivity.
Defined.

(* ------------------------------------------------------------------ *)
(** ** C6: when the top tier is reached *)

Lemma classify_top (score : Z) :
  classify score = Sangat_Berbahaya <-> (75 <= score)%Z.
Proof.
  unfold classify.
  destruct (Z.geb_spec score 75); [ | destruct (Z.geb_spec score 50);
    [ | destruct (Z.geb_spec score 25) ] ]; split; intros Hc;
    try discriminate; try reflexivity; lia.
Qed.

(** C6 as stated fails: an unregistered lender with a DTI of 37.5 (not above
    40) and an APR of 24 (not above 36) scores 50 + 15 + 10 = 75 and is
    classified Sangat Berbahaya, with no financial factor at its severe
    level. *)
Lemma top_tier_without_severe_factor :
  exists m : LoanMetrics,
    calculateMetrics input_moderate false = Returned m /\
    riskLevel m = Sangat_Berbahaya /\ riskScore m = 75%Z /\
    ~ rawDtiRatio input_moderate > 40 /\ ~ dtiRatio m > 40 /\
    ~ rawEffectiveApr input_moderate > 36 /\ ~ effectiveApr m > 36.
Proof.
  eexists. split.
  - apply calculateMetrics_Returned, input_moderate_valid.
  - fields. destruct input_moderate_locals as [-> ->].
    rewrite score_37_24.
    rewrite (round2_hundredths 37.5 3750) by lra.
    rewrite (round2_hundredths 24 2400) by lra.
    repeat split; try reflexivity; lra.
Qed.

(** C6, amended: [calculateMetrics] returns Sangat Berbahaya exactly when
    the lender is unregistered and the two financial factors add at least 25
    points, that is when the unrounded dtiRatio is above 40, or the
    unrounded effectiveApr is above 36, or dtiRatio is above 30 and
    effectiveApr above 20 together; when isRegistered is true the result is
    never Sangat Berbahaya. *)
Theorem top_tier_amended
    (input : LoanInput) (isOjkRegistered : bool) (m : LoanMetrics) :
  calculateMetrics input isOjkRegistered = Returned m ->
  let dti := rawDtiRatio input in
  let apr := rawEffectiveApr input in
  (riskLevel m = Sangat_Berbahaya <->
     isOjkRegistered = false /\
     (dti > 40 \/ apr > 36 \/ (dti > 30 /\ apr > 20))) /\
  (isOjkRegistered = true -> riskLevel m <> Sangat_Berbahaya).
Proof.
  intros H. cbv zeta.
  destruct (calculateMetrics_fields _ _ _ H) as (_ & _ & _ & _ & Hs & Hl).
  rewrite Hl, Hs, classify_top.
  unfold computeRiskScore, registrationPoints, dtiPoints, aprPoints.
  destruct isOjkRegistered; cbn [negb]; split_comparisons;
    (split; [ split; [ intros Hge; split; [ reflexivity || lia | lra || lia ]
                     | intros [Hreg Hor]; first [ discriminate Hreg | lra | lia ] ]
            | intros Hreg; first [ discriminate Hreg | lia ] ]).
Qed.

(** The amended C6 at the unregistered flat loan of 2 percent a month. *)
Lemma top_tier_amended_witness :
  classify (computeRiskScore false (rawDtiRatio input_moderate)
              (rawEffectiveApr input_moderate)) = Sangat_Berbahaya <->
  false = false /\
  (rawDtiRatio input_moderate > 40 \/
   rawEffectiveApr input_moderate > 36 \/
   (rawDtiRatio input_moderate > 30 /\
    rawEffectiveApr input_moderate > 20)).
Proof.
  exact (proj1 (top_tier_amended input_moderate false _
                  (calculateMetrics_Returned _ false input_moderate_valid))).
Defined.

(* ------------------------------------------------------------------ *)
(** ** C7: the thresholds of the affordability factor *)

Lemma input_with_fee_valid (fee : R) :
  0 <= fee -> validateInput (input_with_fee fee) = Returned tt.
Proof.
  intros Hf. apply validateInput_passes.
  unfold constraints_hold, input_with_fee. fields. lra.
Qed.

Lemma input_with_fee_locals (fee : R) :
  rawEffectiveApr (input_with_fee fee) = 12 /\
  rawDtiRatio (input_with_fee fee) = (20200 + fee) / 1000.
Proof.
  unfold input_with_fee. open_calc. split; lra.
Qed.

(** C7: a dtiRatio of exactly 30 contributes 0 points and 30.01 contributes
    15; a dtiRatio of exactly 40 contributes 15 and 40.01 contributes 30.
    Both thresholds are strict.  Every validated call returns a score that
    is the sum of the registration points, the points of the unrounded
    dtiRatio and the points of the APR; and [calculateMetrics] itself, called
    for a registered lender on the one-month loan whose installment is
    30,000, 30,010, 40,000 and 40,010 of an income of 100,000 (APR 12, no
    other points), returns dtiRatio 30 with riskScore 0, 30.01 with 15, 40
    with 15 and 40.01 with 30. *)
Theorem dtiPoints_thresholds :
  dtiPoints 30 = 0%Z /\ dtiPoints 30.01 = 15%Z /\
  dtiPoints 40 = 15%Z /\ dtiPoints 40.01 = 30%Z /\
  (forall dti, dtiPoints dti = 0%Z <-> dti <= 30) /\
  (forall dti, dtiPoints dti = 15%Z <-> 30 < dti <= 40) /\
  (forall dti, dtiPoints dti = 30%Z <-> 40 < dti) /\
  (forall input reg m,
     calculateMetrics input reg = Returned m ->
     riskScore m =
       (registrationPoints reg + dtiPoints (rawDtiRatio input)
        + aprPoints (rawEffectiveApr input))%Z) /\
  (forall input reg,
     validateInput input = Returned tt ->
     exists m,
       calculateMetrics input reg = Returned m /\
       riskScore m =
         (registrationPoints reg + dtiPoints (rawDtiRatio input)
          + aprPoints (rawEffectiveApr input))%Z) /\
  (exists m, calculateMetrics (input_with_fee 9800) true = Returned m /\
             dtiRatio m = 30 /\ riskScore m = 0%Z) /\
  (exists m, calculateMetrics (input_with_fee 9810) true = Returned m /\
             dtiRatio m = 30.01 /\ riskScore m = 15%Z) /\
  (exists m, calculateMetrics (input_with_fee 19800) true = Returned m /\
             dtiRatio m = 40 /\ riskScore m = 15%Z) /\
  (exists m, calculateMetrics (input_with_fee 19810) true = Returned m /\
             dtiRatio m = 40.01 /\ riskScore m = 30%Z).
Proof.
  assert (Hcall : forall fee d (k : Z) (s : Z),
             0 <= fee -> (20200 + fee) / 1000 = d -> d * 100 = IZR k ->
             computeRiskScore true d 12 = s ->
             exists m, calculateMetrics (input_with_fee fee) true = Returned m /\
                       dtiRatio m = d /\ riskScore m = s).
  { intros fee d k s Hf Hd Hk Hs. eexists. split.
    - apply calculateMetrics_Returned, input_with_fee_valid, Hf.
    - fields. destruct (input_with_fee_locals fee) as [-> ->].
      rewrite Hd. split; [exact (round2_hundredths d k Hk) | exact Hs]. }
  unfold dtiPoints.
  repeat match goal with |- _ /\ _ => split end;
    try (split_comparisons; reflexivity);
    try (intros dti; split_comparisons; split; intros H;
         first [ discriminate H | lra | reflexivity ]).
  - intros input reg m H.
    destruct (calculateMetrics_fields _ _ _ H) as (_ & _ & _ & _ & -> & _).
    reflexivity.
  - intros input reg Hv. eexists. split.
    + apply (calculateMetrics_Returned _ _ Hv).
    + reflexivity.
  - apply (Hcall 9800 30 3000%Z 0%Z); try lra. run_score.
  - apply (Hcall 9810 30.01 3001%Z 15%Z); try lra. run_score.
  - apply (Hcall 19800 40 4000%Z 15%Z); try lra. run_score.
  - apply (Hcall 19810 40.01 4001%Z 30%Z); try lra. run_score.
Qed.

(** C7 at the loan whose installment is 30,010: the call returns, and its
    score is the sum of the three factors. *)
Lemma dtiPoints_thresholds_witness :
  exists m,
    calculateMetrics (input_with_fee 9810) true = Returned m /\
    riskScore m =
      (registrationPoints true + dtiPoints (rawDtiRatio (input_with_fee 9810))
       + aprPoints (rawEffectiveApr (input_with_fee 9810)))%Z.
Proof.
  assert (Hf : 0 <= 9810) by lra.
  exact (proj1 (proj2 (proj2 (proj2 (proj2 (proj2 (proj2 (proj2 (proj2
           dtiPoints_thresholds))))))))
           (input_with_fee 9810) true (input_with_fee_valid 9810 Hf)).
Defined.

(* ------------------------------------------------------------------ *)
(** ** Positive divisors over the reals *)



(* ------------------------------------------------------------------ *)
(** ** C9: what the effective APR depends on *)

(** C9: two validated inputs that agree on interestRate and interestType
    get the same effectiveApr, whatever their other fields and registration
    flags; for reducing_balance it is the flat [* 12] annualization of
    monthly_flat, in which the tenor has no part. *)
Theorem effectiveApr_depends_on_rate_and_type
    (input1 input2 : LoanInput) (reg1 reg2 : bool) (m1 m2 : LoanMetrics) :
  calculateMetrics input1 reg1 = Returned m1 ->
  calculateMetrics input2 reg2 = Returned m2 ->
  interestRate input1 = interestRate input2 ->
  interestType input1 = interestType input2 ->
  effectiveApr m1 = effectiveApr m2 /\
  (interestType input1 <> daily ->
   effectiveApr m1 = round2 ((interestRate input1 / 100) * 12 * 100)).
Proof.
  intros H1 H2 Hrate Htype.
  destruct (calculateMetrics_fields _ _ _ H1) as (_ & _ & -> & _).
  destruct (calculateMetrics_fields _ _ _ H2) as (_ & _ & -> & _).
  unfold rawEffectiveApr. rewrite <- Htype, <- Hrate. split.
  - reflexivity.
  - intros Hnd. destruct (interestType input1); [contradiction | reflexivity ..].
Qed.

(** C9 at two flat loans of 2 percent a month that differ in every other
    field and in the registration flag. *)
Lemma effectiveApr_depends_on_rate_and_type_witness :
  round2 (rawEffectiveApr input_moderate) =
  round2 (rawEffectiveApr input_moderate_other).
Proof.
  assert (Hv : validateInput input_moderate_other = Returned tt).
  { apply validateInput_passes. unfold constraints_hold, input_moderate_other.
    fields. lra. }
  exact (proj1 (effectiveApr_depends_on_rate_and_type
                  input_moderate input_moderate_other true false _ _
                  (calculateMetrics_Returned _ true input_moderate_valid)
                  (calculateMetrics_Returned _ false Hv)
                  eq_refl eq_refl)).
Defined.

(* ------------------------------------------------------------------ *)
(** ** C10: the score reads the unrounded ratios *)

(** C10: the returned riskScore is computed from the unrounded dtiRatio and
    effectiveApr, and only the returned fields are rounded.  For the
    registered one-month flat loan whose installment is 30.001 percent of
    income, the exact DTI lies strictly between 30 and 30.005, the returned
    dtiRatio is 30, the returned score is the affordability penalty of 15,
    and scoring the returned (rounded) ratios gives 0 instead. *)
Theorem riskScore_reads_unrounded_ratios :
  (forall input reg m,
     calculateMetrics input reg = Returned m ->
     riskScore m =
       computeRiskScore reg (rawDtiRatio input) (rawEffectiveApr input) /\
     dtiRatio m = round2 (rawDtiRatio input) /\
     effectiveApr m = round2 (rawEffectiveApr input)) /\
  (exists input reg m,
     validateInput input = Returned tt /\
     calculateMetrics input reg = Returned m /\
     30 < rawDtiRatio input < 30.005 /\
     dtiRatio m = 30 /\
     dtiPoints (rawDtiRatio input) = 15%Z /\
     riskScore m = 15%Z /\
     computeRiskScore reg (dtiRatio m) (effectiveApr m) = 0%Z /\
     riskScore m <> computeRiskScore reg (dtiRatio m) (effectiveApr m)).
Proof.
  split.
  - intros input reg m H.
    destruct (calculateMetrics_fields _ _ _ H) as (_ & _ & Ha & Hd & Hs & _).
    auto.
  - exists input_dti_just_above_30, true. eexists.
    split; [apply input_dti_just_above_30_valid | ].
    split; [apply calculateMetrics_Returned, input_dti_just_above_30_valid | ].
    fields. destruct input_dti_just_above_30_locals as [-> ->].
    rewrite score_30001_12.
    rewrite (round2_nearest 30.001 3000) by lra.
    rewrite (round2_hundredths 12 1200) by lra.
    replace (3000 / 100) with 30 by lra.
    rewrite score_30_12.
    repeat match goal with |- _ /\ _ => split end;
      try reflexivity; try lra; try discriminate.
    unfold dtiPoints. split_comparisons. reflexivity.
Qed.

(* ------------------------------------------------------------------ *)
(** ** Rounding to two decimals, over the reals *)



(* ------------------------------------------------------------------ *)
(** ** The cost of a loan, over the reals *)









(* ------------------------------------------------------------------ *)
(** ** The registration flag *)

Lemma classify_mono (s1 s2 : Z) :
  (s1 <= s2)%Z -> (level_rank (classify s1) <= level_rank (classify s2))%Z.
Proof.
  intros Hle. unfold classify.
  destruct (Z.geb_spec s1 75), (Z.geb_spec s1 50), (Z.geb_spec s1 25),
           (Z.geb_spec s2 75), (Z.geb_spec s2 50), (Z.geb_spec s2 25);
    cbn [level_rank]; lia.
Qed.

(** X4: the registration flag decides neither whether [calculateMetrics]
    throws nor any amount it returns: the two calls on one input throw the
    same message or return records with the same totalRepayment,
    monthlyInstallment, effectiveApr and dtiRatio, the unregistered score
    being exactly 50 above the registered one and its level at least as
    high. *)
Theorem registration_flag_effect (input : LoanInput) :
  match calculateMetrics input true, calculateMetrics input false with
  | Returned m1, Returned m2 =>
      totalRepayment m2 = totalRepayment m1 /\
      monthlyInstallment m2 = monthlyInstallment m1 /\
      effectiveApr m2 = effectiveApr m1 /\
      dtiRatio m2 = dtiRatio m1 /\
      riskScore m2 = (riskScore m1 + 50)%Z /\
      (level_rank (riskLevel m1) <= level_rank (riskLevel m2))%Z
  | Thrown msg1, Thrown msg2 => msg1 = msg2
  | _, _ => False
  end.
Proof.
  destruct (validateInput input) as [[] | msg] eqn:Hv.
  - rewrite !(calculateMetrics_Returned _ _ Hv). fields.
    repeat split; try reflexivity.
    + unfold computeRiskScore, registrationPoints. cbn [negb]. lia.
    + apply classify_mono.
      unfold computeRiskScore, registrationPoints. cbn [negb]. lia.
  - rewrite !(calculateMetrics_Thrown _ _ _ Hv). reflexivity.
Qed.

Lemma unregistered_score (input : LoanInput) (m : LoanMetrics) :
  calculateMetrics input false = Returned m ->
  (50 <= riskScore m <= 110)%Z /\
  (riskLevel m = Tinggi \/ riskLevel m = Sangat_Berbahaya).
Proof.
  intros H.
  destruct (calculateMetrics_fields _ _ _ H) as (_ & _ & _ & _ & Hs & Hl).
  rewrite Hl, Hs.
  unfold computeRiskScore, registrationPoints, dtiPoints, aprPoints, classify.
  cbn [negb]. split_comparisons; cbn; (split; [lia | auto]).
Qed.

(** X5: an unregistered lender is never classified below Tinggi: the score
    returned for [isOjkRegistered = false] is at least 50 and the level is
    Tinggi or Sangat Berbahaya; a registered lender scores at most 60. *)
Theorem unregistered_is_at_least_Tinggi :
  (forall input m,
     calculateMetrics input false = Returned m ->
     (50 <= riskScore m <= 110)%Z /\
     (riskLevel m = Tinggi \/ riskLevel m = Sangat_Berbahaya)) /\
  (forall input m,
     calculateMetrics input true = Returned m -> (0 <= riskScore m <= 60)%Z).
Proof.
  split; intros input m H.
  - exact (unregistered_score input m H).
  - destruct (calculateMetrics_fields _ _ _ H) as (_ & _ & _ & _ & Hs & _).
    rewrite Hs.
    unfold computeRiskScore, registrationPoints, dtiPoints, aprPoints.
    cbn [negb]. split_comparisons; lia.
Qed.


(* ------------------------------------------------------------------ *)
(** ** Monotonicity *)






(* ------------------------------------------------------------------ *)
(** ** The results view *)

Open Scope string_scope.
Open Scope R_scope.

(** X10: on a record returned by [calculateMetrics] the colour of the
    progress bar (from riskScore) and the colour of the level badge (from
    riskLevel) always show the same tier: red with red, orange with orange,
    yellow with yellow, green with green. *)
Theorem results_view_tiers_agree
    (input : LoanInput) (isOjkRegistered : bool) (m : LoanMetrics) :
  calculateMetrics input isOjkRegistered = Returned m ->
  (LoanResults.riskProgressClass (Some m) = "bg-red-600"
     <-> LoanResults.riskColorClass (Some m) = "bg-red-700") /\
  (LoanResults.riskProgressClass (Some m) = "bg-orange-500"
     <-> LoanResults.riskColorClass (Some m) = "bg-orange-600") /\
  (LoanResults.riskProgressClass (Some m) = "bg-yellow-500"
     <-> LoanResults.riskColorClass (Some m) = "bg-yellow-500 text-gray-900") /\
  (LoanResults.riskProgressClass (Some m) = "bg-green-600"
     <-> LoanResults.riskColorClass (Some m) = "bg-green-700").
Proof.
  intros H.
  destruct (calculateMetrics_fields _ _ _ H) as (_ & _ & _ & _ & _ & Hl).
  unfold LoanResults.riskProgressClass, LoanResults.riskColorClass.
  cbn [option_map]. rewrite Hl. unfold classify.
  destruct (riskScore m >=? 75)%Z; [ | destruct (riskScore m >=? 50)%Z;
    [ | destruct (riskScore m >=? 25)%Z ] ];
    repeat split; intros E; first [ reflexivity | discriminate E ].
Qed.

(** X10 at the daily scenario. *)
Lemma results_view_tiers_agree_witness :
  LoanResults.riskProgressClass
    (Some {| totalRepayment := 1350000; monthlyInstallment := 1350000;
             effectiveApr := 365; dtiRatio := 27; riskScore := 80;
             riskLevel := Sangat_Berbahaya |}) = "bg-red-600"
  <-> LoanResults.riskColorClass
    (Some {| totalRepayment := 1350000; monthlyInstallment := 1350000;
             effectiveApr := 365; dtiRatio := 27; riskScore := 80;
             riskLevel := Sangat_Berbahaya |}) = "bg-red-700".
Proof.
  assert (H : calculateMetrics (scenario_daily "Dana Kilat") false =
              Returned {| totalRepayment := 1350000;
                          monthlyInstallment := 1350000;
                          effectiveApr := 365; dtiRatio := 27;
                          riskScore := 80;
                          riskLevel := Sangat_Berbahaya |}).
  { rewrite calculateMetrics_Returned by apply scenario_daily_valid.
    destruct (scenario_daily_locals "Dana Kilat") as (_ & -> & -> & -> & ->).
    rewrite score_27_365.
    rewrite (round2_hundredths 1350000 135000000) by lra.
    rewrite (round2_hundredths 365 36500) by lra.
    rewrite (round2_hundredths 27 2700) by lra.
    reflexivity. }
  exact (proj1 (results_view_tiers_agree _ _ _ H)).
Defined.

(* ------------------------------------------------------------------ *)
(** ** The form and the root component *)

Lemma min_accepts (n : R) (v : option R) :
  LoanForm.required v = true -> LoanForm.min n v = true ->
  n <= LoanForm.Number v.
Proof.
  destruct v as [x | ]; cbn; [ | discriminate].
  intros _. destruct (Rlt_dec x n); [discriminate | lra].
Qed.

Lemma processForm_fields (v : LoanForm.FormValue) (input : LoanInput) :
  LoanForm.processForm v = Some input ->
  amount input >= 1 /\ interestRate input >= 0.01 /\ tenor input >= 1 /\
  monthlyIncome input >= 1 /\ adminFee input >= 0 /\
  (2 <= String.length (lenderName input))%nat.
Proof.
  unfold LoanForm.processForm, LoanForm.valid.
  destruct (_ && _) eqn:Hvalid; [ | discriminate].
  repeat match goal with
         | Hb : _ && _ = true |- _ =>
             apply andb_true_iff in Hb; destruct Hb
         end.
  destruct (LoanForm.fInterestType v); [ | discriminate].
  destruct (LoanForm.fTenorUnit v); [ | discriminate].
  intros E. injection E as <-. fields.
  repeat match goal with
         | Hr : LoanForm.required ?x = true, Hm : LoanForm.min ?n ?x = true |- _ =>
             pose proof (min_accepts n x Hr Hm); clear Hm
         end.
  repeat split; try lra.
  - match goal with Hm : LoanForm.min 0 _ = true |- _ => revert Hm end.
    unfold LoanForm.min, LoanForm.or_zero, LoanForm.Number.
    destruct (LoanForm.fAdminFee v) as [x | ]; [ | intros _; lra].
    destruct (Rlt_dec x 0); [discriminate | ].
    intros _. destruct (Req_dec_T x 0); lra.
  - match goal with
    | Hq : LoanForm.required_string _ = true,
      Hl : LoanForm.minLength 2 _ = true |- _ => revert Hq Hl
    end.
    unfold LoanForm.required_string, LoanForm.minLength.
    destruct (String.length (LoanForm.fLenderName v)) as [ | [ | k]];
      cbn; intros; try discriminate; lia.
Qed.

(** X12: every input the form emits passes the validation of the
    calculator: [processForm] emits only when amount, tenor and
    monthlyIncome are at least 1, interestRate at least 0.01 and adminFee
    (0 when left empty) not negative, so [calculateMetrics] returns metrics
    for it whatever the registration flag. *)
Theorem form_input_is_accepted (v : LoanForm.FormValue) (input : LoanInput) :
  LoanForm.processForm v = Some input ->
  validateInput input = Returned tt /\
  amount input >= 1 /\ interestRate input >= 0.01 /\ tenor input >= 1 /\
  monthlyIncome input >= 1 /\ adminFee input >= 0 /\
  (forall reg, exists m, calculateMetrics input reg = Returned m).
Proof.
  intros H.
  destruct (processForm_fields v input H) as (Ha & Hr & Ht & Hm & Hf & _).
  assert (Hv : validateInput input = Returned tt).
  { apply validateInput_passes. unfold constraints_hold. repeat split; lra. }
  repeat split; try assumption.
  intros reg. eexists. apply (calculateMetrics_Returned _ _ Hv).
Qed.

Lemma form_filled_emits :
  LoanForm.processForm form_filled =
    Some {| amount := 1000000; interestRate := 1; interestType := daily;
            tenor := 30; tenorUnit := days; adminFee := 0;
            monthlyIncome := 5000000; lenderName := "Dana Kilat" |}.
Proof.
  unfold LoanForm.processForm, LoanForm.valid, form_filled. cbn.
  repeat match goal with
         | |- context [Rlt_dec ?a ?b] =>
             destruct (Rlt_dec a b); [exfalso; lra | ]
         end.
  cbn [andb]. reflexivity.
Qed.

(** X12 at a filled form whose fee field is empty: the emitted input has
    a fee of 0 and passes validation. *)
Lemma form_input_is_accepted_witness :
  validateInput
    {| amount := 1000000; interestRate := 1; interestType := daily;
       tenor := 30; tenorUnit := days; adminFee := 0;
       monthlyIncome := 5000000; lenderName := "Dana Kilat" |}
  = Returned tt.
Proof.
  exact (proj1 (form_input_is_accepted form_filled _ form_filled_emits)).
Defined.

(** X13: the registry lookup fails closed: when the HTTP call of [verify]
    fails, or answers that the lender is not registered, [analyzeLoan] scores
    a valid input as unregistered: the state shows isOjkRegistered = false
    and metrics with a riskScore of at least 50 and a level of Tinggi or
    Sangat Berbahaya, whatever the answer of the explanation service. *)
Theorem lookup_fails_closed
    (s : App.State) (input : LoanInput)
    (verifyHttp : outcome VerifyLenderResponse) (chatHttp : outcome ChatResponse) :
  validateInput input = Returned tt ->
  (forall response, verifyHttp = Returned response -> isRegistered response = false) ->
  let s' := App.analyzeLoan s input verifyHttp chatHttp in
  App.isOjkRegistered s' = false /\
  App.hasResult s' = true /\
  exists m : LoanMetrics,
    App.currentMetrics s' = Some m /\
    calculateMetrics input false = Returned m /\
    (50 <= riskScore m)%Z /\
    (riskLevel m = Tinggi \/ riskLevel m = Sangat_Berbahaya).
Proof.
  intros Hv Hreg. cbv zeta.
  assert (Hf : OjkValidator.verify verifyHttp = false).
  { destruct verifyHttp as [response | e]; cbn; [ | reflexivity].
    apply Hreg. reflexivity. }
  unfold App.analyzeLoan. cbv zeta. rewrite Hf.
  pose proof (calculateMetrics_Returned input false Hv) as Hm.
  pose proof (unregistered_score input _ Hm) as (Hs & Hl).
  rewrite Hm.
  destruct (AiClient.requestExplanation chatHttp); cbn [App.isOjkRegistered
    App.hasResult App.currentMetrics];
    (split; [reflexivity | split; [reflexivity | ] ]);
    eexists; (split; [reflexivity | split; [reflexivity | ] ]);
    split; [ lia | exact Hl | lia | exact Hl ].
Qed.

(** X13 at the daily scenario with both HTTP calls failing. *)
Lemma lookup_fails_closed_witness :
  App.isOjkRegistered
    (App.analyzeLoan App.initial (scenario_daily "Dana Kilat")
       (Thrown "timeout") (Thrown "timeout")) = false.
Proof.
  assert (Hreg : forall response,
             @Thrown VerifyLenderResponse "timeout" = Returned response ->
             isRegistered response = false) by (intros r E; discriminate E).
  exact (proj1 (lookup_fails_closed App.initial (scenario_daily "Dana Kilat")
                  (Thrown "timeout") (Thrown "timeout")
                  (scenario_daily_valid _) Hreg)).
Defined.

(** X14: what one run of [analyzeLoan] leaves behind.  It always records
    the input and ends with isAiLoading = false.  On a valid input the
    metrics of [calculateMetrics] are shown whether or not the explanation
    service answers; hasAiError is set exactly when that service fails, and
    an explanation shown after a successful answer is never empty.  On an
    input that validation rejects, the result flags, the metrics and the
    registration flag of the previous run stay as they were and hasAiError is
    set. *)
Theorem analyzeLoan_outcome
    (s : App.State) (input : LoanInput)
    (verifyHttp : outcome VerifyLenderResponse) (chatHttp : outcome ChatResponse) :
  let s' := App.analyzeLoan s input verifyHttp chatHttp in
  App.currentInput s' = Some input /\ App.isAiLoading s' = false /\
  (forall m,
     calculateMetrics input (OjkValidator.verify verifyHttp) = Returned m ->
     App.currentMetrics s' = Some m /\ App.hasResult s' = true /\
     App.showEmptyState s' = false /\
     App.isOjkRegistered s' = OjkValidator.verify verifyHttp /\
     (App.hasAiError s' = true <-> exists e, chatHttp = Thrown e) /\
     (forall res, chatHttp = Returned res ->
        App.aiExplanation s' <> "" /\
        (result res <> "" -> App.aiExplanation s' = result res))) /\
  (forall msg,
     calculateMetrics input (OjkValidator.verify verifyHttp) = Thrown msg ->
     App.currentMetrics s' = App.currentMetrics s /\
     App.hasResult s' = App.hasResult s /\
     App.showEmptyState s' = App.showEmptyState s /\
     App.isOjkRegistered s' = App.isOjkRegistered s /\
     App.hasAiError s' = true /\ App.aiExplanation s' = "").
Proof.
  cbv zeta. unfold App.analyzeLoan. cbv zeta.
  destruct (calculateMetrics input (OjkValidator.verify verifyHttp))
    as [metrics | msg0].
  - destruct chatHttp as [res | e]; cbn;
      (split; [reflexivity | split; [reflexivity | split ] ]);
      try (intros msg E; discriminate E);
      intros m0 E; injection E as <-;
      (split; [reflexivity | split; [reflexivity | split; [reflexivity
        | split; [reflexivity | split ] ] ] ]).
    + split; [intros E; discriminate E | intros [e He]; discriminate He].
    + intros res' E. injection E as <-.
      destruct (String.eqb_spec (result res) "") as [Heq | Hne].
      * split; [discriminate | intros Hn; contradiction].
      * split; [exact Hne | reflexivity].
    + split; [intros _; exists e; reflexivity | reflexivity].
    + intros res' E. discriminate E.
  - cbn. split; [reflexivity | split; [reflexivity | split ] ].
    + intros m0 E. discriminate E.
    + intros msg _. repeat split; reflexivity.
Qed.

(** X15: a submitted form always ends in a displayed result: for every
    input [processForm] emits, one run of [analyzeLoan] never takes the
    validation-error path; it shows metrics computed for the flag the lookup
    gave, with a riskScore between 0 and 110, whatever the two HTTP calls
    answer. *)
Theorem submitted_form_shows_result
    (v : LoanForm.FormValue) (input : LoanInput) (s : App.State)
    (verifyHttp : outcome VerifyLenderResponse) (chatHttp : outcome ChatResponse) :
  LoanForm.processForm v = Some input ->
  let s' := App.analyzeLoan s input verifyHttp chatHttp in
  App.hasResult s' = true /\ App.showEmptyState s' = false /\
  App.isAiLoading s' = false /\
  exists m : LoanMetrics,
    App.currentMetrics s' = Some m /\
    calculateMetrics input (OjkValidator.verify verifyHttp) = Returned m /\
    (0 <= riskScore m <= 110)%Z.
Proof.
  intros H. cbv zeta.
  destruct (processForm_fields v input H) as (Ha & Hr & Ht & Hm & Hf & _).
  assert (Hv : validateInput input = Returned tt).
  { apply validateInput_passes. unfold constraints_hold. repeat split; lra. }
  pose proof (calculateMetrics_Returned input (OjkValidator.verify verifyHttp) Hv)
    as Hc.
  unfold App.analyzeLoan. cbv zeta. rewrite Hc.
  destruct (AiClient.requestExplanation chatHttp);
    cbn [App.hasResult App.showEmptyState App.isAiLoading App.currentMetrics];
    (split; [reflexivity | split; [reflexivity | split; [reflexivity | ] ] ]);
    eexists; (split; [reflexivity | split; [reflexivity | ] ]);
    fields; apply computeRiskScore_range.
Qed.

(** X15 at the filled form, from the initial state, with both HTTP calls
    failing. *)
Lemma submitted_form_shows_result_witness :
  App.hasResult
    (App.analyzeLoan App.initial
       {| amount := 1000000; interestRate := 1; interestType := daily;
          tenor := 30; tenorUnit := days; adminFee := 0;
          monthlyIncome := 5000000; lenderName := "Dana Kilat" |}
       (Thrown "timeout") (Thrown "timeout")) = true.
Proof.
  exact (proj1 (submitted_form_shows_result form_filled _ App.initial
                  (Thrown "timeout") (Thrown "timeout") form_filled_emits)).
Defined.

(* ------------------------------------------------------------------ *)
(** ** The four levels *)

(** X16: the level of a returned record, from the registration flag and
    the bands of the unrounded dtiRatio and effectiveApr.  With
    [pressure] standing for "dtiRatio > 40, or effectiveApr > 36, or
    dtiRatio > 30 and effectiveApr > 20": a registered lender is Rendah
    without pressure, Tinggi exactly when dtiRatio > 40 and
    effectiveApr > 36 together, and Sedang otherwise; an unregistered
    lender is Tinggi without pressure and Sangat Berbahaya with it. *)
Theorem riskLevel_by_bands
    (input : LoanInput) (isOjkRegistered : bool) (m : LoanMetrics) :
  calculateMetrics input isOjkRegistered = Returned m ->
  let dti := rawDtiRatio input in
  let apr := rawEffectiveApr input in
  let pressure := dti > 40 \/ apr > 36 \/ (dti > 30 /\ apr > 20) in
  (riskLevel m = Rendah <-> isOjkRegistered = true /\ ~ pressure) /\
  (riskLevel m = Sedang <->
     isOjkRegistered = true /\ pressure /\ ~ (dti > 40 /\ apr > 36)) /\
  (riskLevel m = Tinggi <->
     (isOjkRegistered = true /\ dti > 40 /\ apr > 36) \/
     (isOjkRegistered = false /\ ~ pressure)) /\
  (riskLevel m = Sangat_Berbahaya <-> isOjkRegistered = false /\ pressure).
Proof.
  intros H. cbv zeta.
  destruct (calculateMetrics_fields _ _ _ H) as (_ & _ & _ & _ & Hs & Hl).
  rewrite Hl, Hs.
  unfold computeRiskScore, registrationPoints, dtiPoints, aprPoints.
  destruct isOjkRegistered; cbn [negb]; split_comparisons; cbn;
    repeat match goal with |- _ /\ _ => split end;
    (split;
     [ intros E; first [ discriminate E
                       | split; [reflexivity | ]; first [ lra | tauto
                           | split; [ lra | tauto ] | split; [ tauto | lra ] ]
                       | left; repeat split; first [reflexivity | lra]
                       | right; split; [reflexivity | lra]
                       | tauto ]
     | intros E; first [ reflexivity
                       | exfalso;
                         repeat match goal with
                                | Hx : _ /\ _ |- _ => destruct Hx
                                | Hx : _ \/ _ |- _ => destruct Hx
                                end;
                         first [ discriminate | lra | tauto ] ] ]).
Qed.

(** X16 at the registered loan whose DTI is 30.001 and whose APR is 12. *)
Lemma riskLevel_by_bands_witness :
  classify (computeRiskScore true (rawDtiRatio input_dti_just_above_30)
              (rawEffectiveApr input_dti_just_above_30)) = Rendah
  <-> true = true /\
      ~ (rawDtiRatio input_dti_just_above_30 > 40 \/
         rawEffectiveApr input_dti_just_above_30 > 36 \/
         (rawDtiRatio input_dti_just_above_30 > 30 /\
          rawEffectiveApr input_dti_just_above_30 > 20)).
Proof.
  exact (proj1 (riskLevel_by_bands input_dti_just_above_30 true _
                  (calculateMetrics_Returned _ true
                     input_dti_just_above_30_valid))).
Defined.

(* ------------------------------------------------------------------ *)
(** ** The calculator in binary64: what rounding, overflow and
       not-a-number change *)

Import Floats.
Open Scope float_scope.
#[local] Set Warnings "-inexact-float".

(** [Math.round] in binary64: ties go up, a value just below a half goes
    down, a zero result keeps the sign, and what is not a finite fraction
    is returned as it is. *)
Lemma Math_round_examples :
  Binary64.Math_round 2.5 = 3 /\ Binary64.Math_round (-2.5) = -2 /\
  Binary64.Math_round 0.49999999999999994 = 0 /\
  Binary64.Math_round 1412.5 = 1413 /\
  Binary64.Math_round 3000.9999999999995 = 3001 /\
  Binary64.Math_round (-0.2) = -0 /\
  Binary64.Math_round 4503599627370497 = 4503599627370497 /\
  Binary64.Math_round infinity = infinity /\
  is_nan (Binary64.Math_round nan) = true.
Proof. repeat split; vm_compute; reflexivity. Qed.

(** The scenarios of the real-number embedding return the same records in
    binary64 arithmetic: the daily scenario, the loan with all factors
    severe, the loan with two moderate factors, the loan whose DTI is
    30.001, and the four loans at the thresholds of the affordability
    factor.  None of them calls [Math.pow]. *)
Lemma binary64_scenarios (Math_pow : float -> float -> float) (name : string) :
  Binary64.calculateMetrics Math_pow (Binary64.scenario_daily name) false =
    Returned {| Binary64.totalRepayment := 1350000;
                Binary64.monthlyInstallment := 1350000;
                Binary64.effectiveApr := 365; Binary64.dtiRatio := 27;
                Binary64.riskScore := 80;
                Binary64.riskLevel := Sangat_Berbahaya |} /\
  Binary64.calculateMetrics Math_pow Binary64.input_all_severe false =
    Returned {| Binary64.totalRepayment := 1350000;
                Binary64.monthlyInstallment := 1350000;
                Binary64.effectiveApr := 365; Binary64.dtiRatio := 45;
                Binary64.riskScore := 110;
                Binary64.riskLevel := Sangat_Berbahaya |} /\
  Binary64.calculateMetrics Math_pow Binary64.input_moderate false =
    Returned {| Binary64.totalRepayment := 1200000;
                Binary64.monthlyInstallment := 120000;
                Binary64.effectiveApr := 24; Binary64.dtiRatio := 37.5;
                Binary64.riskScore := 75;
                Binary64.riskLevel := Sangat_Berbahaya |} /\
  Binary64.calculateMetrics Math_pow (Binary64.input_with_fee 9801) true =
    Returned {| Binary64.totalRepayment := 30001;
                Binary64.monthlyInstallment := 30001;
                Binary64.effectiveApr := 12; Binary64.dtiRatio := 30;
                Binary64.riskScore := 15; Binary64.riskLevel := Rendah |} /\
  Binary64.calculateMetrics Math_pow (Binary64.input_with_fee 9800) true =
    Returned {| Binary64.totalRepayment := 30000;
                Binary64.monthlyInstallment := 30000;
                Binary64.effectiveApr := 12; Binary64.dtiRatio := 30;
                Binary64.riskScore := 0; Binary64.riskLevel := Rendah |} /\
  Binary64.calculateMetrics Math_pow (Binary64.input_with_fee 9810) true =
    Returned {| Binary64.totalRepayment := 30010;
                Binary64.monthlyInstallment := 30010;
                Binary64.effectiveApr := 12; Binary64.dtiRatio := 30.01;
                Binary64.riskScore := 15; Binary64.riskLevel := Rendah |} /\
  Binary64.calculateMetrics Math_pow (Binary64.input_with_fee 19800) true =
    Returned {| Binary64.totalRepayment := 40000;
                Binary64.monthlyInstallment := 40000;
                Binary64.effectiveApr := 12; Binary64.dtiRatio := 40;
                Binary64.riskScore := 15; Binary64.riskLevel := Rendah |} /\
  Binary64.calculateMetrics Math_pow (Binary64.input_with_fee 19810) true =
    Returned {| Binary64.totalRepayment := 40010;
                Binary64.monthlyInstallment := 40010;
                Binary64.effectiveApr := 12; Binary64.dtiRatio := 40.01;
                Binary64.riskScore := 30; Binary64.riskLevel := Sedang |}.
Proof.
  repeat split; vm_compute; reflexivity.
Qed.

(** *** Comparisons with zero *)

Lemma Prim2SF_nan (x : float) : is_nan x = true <-> Prim2SF x = S754_nan.
Proof.
  unfold is_nan. rewrite FloatAxioms.eqb_spec. split.
  - destruct (Prim2SF x) as [s | s | | s m e] eqn:E; try reflexivity;
      unfold SFeqb, SFcompare; intros H.
    + discriminate H.
    + destruct s; discriminate H.
    + destruct s; rewrite Z.compare_refl, Pos.compare_refl in H;
        discriminate H.
  - intros ->. reflexivity.
Qed.

Lemma Prim2SF_zero : Prim2SF 0 = S754_zero false.
Proof. vm_compute. reflexivity. Qed.

(** A field that is not a number satisfies none of the tests of
    [validateInput], and is not above zero either. *)
Lemma NaN_comparisons (x : float) :
  is_nan x = true ->
  (x <=? 0) = false /\ (x <? 0) = false /\
  (0 <? x) = false /\ (0 <=? x) = false.
Proof.
  intros H. apply Prim2SF_nan in H.
  rewrite !FloatAxioms.leb_spec, !FloatAxioms.ltb_spec, H, Prim2SF_zero.
  repeat split; reflexivity.
Qed.

(** On a number, [x <= 0] is the negation of [x > 0] and [x < 0] the
    negation of [x >= 0]. *)
Lemma number_comparisons (x : float) :
  is_nan x = false ->
  (x <=? 0) = negb (0 <? x) /\ (x <? 0) = negb (0 <=? x).
Proof.
  intros H.
  assert (Hx : Prim2SF x <> S754_nan).
  { intros E. apply Prim2SF_nan in E. congruence. }
  rewrite !FloatAxioms.leb_spec, !FloatAxioms.ltb_spec, Prim2SF_zero.
  destruct (Prim2SF x) as [s | s | | s m e]; try contradiction;
    destruct s; split; reflexivity.
Qed.

(** When no field is not-a-number, validation in binary64 passes exactly
    when the five constraints hold; the infinities are numbers. *)
Lemma validateInput_on_numbers (input : Binary64.LoanInput) :
  is_nan (Binary64.amount input) = false ->
  is_nan (Binary64.interestRate input) = false ->
  is_nan (Binary64.tenor input) = false ->
  is_nan (Binary64.monthlyIncome input) = false ->
  is_nan (Binary64.adminFee input) = false ->
  (Binary64.validateInput input = Returned tt <-> Binary64.constraints_hold input).
Proof.
  intros Ha Hr Ht Hm Hf.
  destruct (number_comparisons _ Ha) as [Ea _].
  destruct (number_comparisons _ Hr) as [Er _].
  destruct (number_comparisons _ Ht) as [Et _].
  destruct (number_comparisons _ Hm) as [Em _].
  destruct (number_comparisons _ Hf) as [_ Ef].
  unfold Binary64.validateInput, Binary64.constraints_hold, Binary64.throw_if.
  rewrite Ea, Er, Et, Em, Ef.
  destruct (0 <? Binary64.amount input), (0 <? Binary64.interestRate input),
    (0 <? Binary64.tenor input), (0 <? Binary64.monthlyIncome input),
    (0 <=? Binary64.adminFee input); cbn;
    split; intros H; try discriminate H; try reflexivity;
    try (repeat split; reflexivity);
    destruct H as (H1 & H2 & H3 & H4 & H5); discriminate.
Qed.

(** *** C3: a field that is not a number *)

(** C3, at the input that breaks it: with an amount that is not a number
    the constraint amount > 0 is violated, yet [validateInput] throws
    nothing and [calculateMetrics] returns a record whose totalRepayment,
    monthlyInstallment and dtiRatio are not numbers, scored from the APR and
    the registration flag alone. *)
Theorem validation_accepts_NaN
    (Math_pow : float -> float -> float) (isOjkRegistered : bool) :
  (0 <? Binary64.amount Binary64.input_NaN_amount) = false /\
  Binary64.validateInput Binary64.input_NaN_amount = Returned tt /\
  exists m : Binary64.LoanMetrics,
    Binary64.calculateMetrics Math_pow Binary64.input_NaN_amount isOjkRegistered
      = Returned m /\
    is_nan (Binary64.totalRepayment m) = true /\
    is_nan (Binary64.monthlyInstallment m) = true /\
    is_nan (Binary64.dtiRatio m) = true /\
    Binary64.effectiveApr m = 365 /\
    Binary64.riskScore m = (if isOjkRegistered then 30 else 80)%Z.
Proof.
  split; [vm_compute; reflexivity | ].
  split; [vm_compute; reflexivity | ].
  destruct isOjkRegistered; eexists;
    (split; [vm_compute; reflexivity | ]);
    repeat split; vm_compute; reflexivity.
Qed.

(** *** C8: divisors that are zero, results that are not numbers *)

(** C8, at the inputs that break it.  Each of the three inputs passes
    validation.  Over the smallest positive tenor in days [tenor / 30] is 0
    and the flat installment is a division by zero, infinity.  At a rate of
    1e-15 percent [1 + rate / 100] is 1, so with [Math.pow(1, 12) = 1] the
    divisor [(1 + r)^n - 1] is 0 and the installment is infinity.  At 100
    percent a month over 1100 months, with [Math.pow(2, 1100)] infinite,
    the divisor is infinite and installment, repayment and dtiRatio are not
    numbers. *)
Theorem division_by_zero_reached :
  (forall Math_pow reg,
     Binary64.validateInput Binary64.input_vanishing_tenor = Returned tt /\
     Binary64.tenor Binary64.input_vanishing_tenor / 30 = 0 /\
     exists m,
       Binary64.calculateMetrics Math_pow Binary64.input_vanishing_tenor reg
         = Returned m /\
       Binary64.monthlyInstallment m = infinity /\
       Binary64.dtiRatio m = infinity) /\
  (forall Math_pow reg,
     Math_pow 1 12 = 1 ->
     Binary64.validateInput Binary64.input_absorbed_rate = Returned tt /\
     Math_pow (1 + Binary64.interestRate Binary64.input_absorbed_rate / 100)
              (Binary64.tenor Binary64.input_absorbed_rate) - 1 = 0 /\
     exists m,
       Binary64.calculateMetrics Math_pow Binary64.input_absorbed_rate reg
         = Returned m /\
       Binary64.monthlyInstallment m = infinity /\
       Binary64.totalRepayment m = infinity) /\
  (forall Math_pow reg,
     Math_pow 2 1100 = infinity ->
     Binary64.validateInput Binary64.input_overflowing_power = Returned tt /\
     exists m,
       Binary64.calculateMetrics Math_pow Binary64.input_overflowing_power reg
         = Returned m /\
       is_nan (Binary64.monthlyInstallment m) = true /\
       is_nan (Binary64.totalRepayment m) = true /\
       is_nan (Binary64.dtiRatio m) = true).
Proof.
  split; [ | split].
  - intros Math_pow reg.
    split; [vm_compute; reflexivity | ].
    split; [vm_compute; reflexivity | ].
    destruct reg; eexists; (split; [vm_compute; reflexivity | ]);
      split; vm_compute; reflexivity.
  - intros Math_pow reg Hpow.
    assert (Hbase : 1 + Binary64.interestRate Binary64.input_absorbed_rate / 100
                    = 1) by (vm_compute; reflexivity).
    split; [vm_compute; reflexivity | ].
    split.
    + rewrite Hbase. cbn [Binary64.tenor Binary64.input_absorbed_rate].
      rewrite Hpow. vm_compute. reflexivity.
    + unfold Binary64.calculateMetrics, Binary64.calculateReducingBalanceInterest.
      replace (Binary64.validateInput Binary64.input_absorbed_rate)
        with (@Returned unit tt) by (vm_compute; reflexivity).
      cbn [bind Binary64.interestType Binary64.input_absorbed_rate
           Binary64.tenorUnit Binary64.tenor Binary64.amount
           Binary64.interestRate Binary64.adminFee Binary64.monthlyIncome].
      replace (1e-15 / 100 =? 0) with false by (vm_compute; reflexivity).
      replace (1 + 1e-15 / 100) with 1 by (vm_compute; reflexivity).
      rewrite Hpow.
      destruct reg; eexists; (split; [reflexivity | ]);
        split; vm_compute; reflexivity.
  - intros Math_pow reg Hpow.
    split; [vm_compute; reflexivity | ].
    unfold Binary64.calculateMetrics, Binary64.calculateReducingBalanceInterest.
    replace (Binary64.validateInput Binary64.input_overflowing_power)
      with (@Returned unit tt) by (vm_compute; reflexivity).
    cbn [bind Binary64.interestType Binary64.input_overflowing_power
         Binary64.tenorUnit Binary64.tenor Binary64.amount
         Binary64.interestRate Binary64.adminFee Binary64.monthlyIncome].
    replace (100 / 100 =? 0) with false by (vm_compute; reflexivity).
    replace (1 + 100 / 100) with 2 by (vm_compute; reflexivity).
    rewrite Hpow.
    destruct reg; eexists; (split; [reflexivity | ]);
      repeat split; vm_compute; reflexivity.
Qed.

(** C8 with repeated multiplication for [Math.pow]: it gives 1 for 1^12
    and infinity for 2^1100. *)
Lemma division_by_zero_reached_witness :
  (exists m,
     Binary64.calculateMetrics Binary64.Math_pow_whole
       Binary64.input_absorbed_rate false = Returned m /\
     Binary64.monthlyInstallment m = infinity /\
     Binary64.totalRepayment m = infinity) /\
  (exists m,
     Binary64.calculateMetrics Binary64.Math_pow_whole
       Binary64.input_overflowing_power false = Returned m /\
     is_nan (Binary64.monthlyInstallment m) = true /\
     is_nan (Binary64.totalRepayment m) = true /\
     is_nan (Binary64.dtiRatio m) = true).
Proof.
  assert (H1 : Binary64.Math_pow_whole 1 12 = 1) by (vm_compute; reflexivity).
  assert (H2 : Binary64.Math_pow_whole 2 1100 = infinity)
    by (vm_compute; reflexivity).
  split.
  - exact (proj2 (proj2 (proj1 (proj2 division_by_zero_reached)
                           Binary64.Math_pow_whole false H1))).
  - exact (proj2 (proj2 (proj2 division_by_zero_reached)
                    Binary64.Math_pow_whole false H2)).
Defined.
